(** * Live transcription frontend (main.js): model and properties

    A shallow embedding of [main.js]: the float32 -> int16 conversion of the
    audio callback, the WebSocket message handler with the transcript
    renderer, and the connection lifecycle (connect, onConnected,
    disconnect, the socket handlers and the audio callback) as functions on
    an explicit world state. *)

From Stdlib Require Import ZArith QArith Qround Qabs String List Lia Lqa Bool.
From stdpp Require Import base list strings.
Import ListNotations.

Set Warnings "-register-all".

Local Open Scope Z_scope.
Local Open Scope string_scope.
Local Open Scope list_scope.

(** ** JavaScript numbers

    A JavaScript number is a binary64 value.  It is modelled by its exact
    value: not-a-number, an infinity, or a rational.  The two zeros are
    identified: no operation used by [main.js] ([<], [*], [Math.min],
    [Math.max], truthiness, a typed-array store) tells them apart.

    The only arithmetic of the program is [s * 0x8000] and [s * 0x7FFF] on
    an element [s] of a [Float32Array] clamped to [-1, 1].  Such an [s] is
    [m * 2^e] with [|m| < 2^24], so both products have a significand below
    [2^39] and are exact in binary64: the rational product is the value the
    program computes. *)

Inductive number :=
| NaN
| Infinity (negative : bool)
| Finite (q : Q).

Definition Qltb (a b : Q) : bool := negb (Qle_bool b a).

Definition Qmin (a b : Q) : Q := if Qle_bool a b then a else b.
Definition Qmax (a b : Q) : Q := if Qle_bool a b then b else a.

(** [Math.min(a, b)] *)
Definition Math_min (a b : number) : number :=
  match a, b with
  | NaN, _ | _, NaN => NaN
  | Infinity true, _ | _, Infinity true => Infinity true
  | Infinity false, y => y
  | x, Infinity false => x
  | Finite x, Finite y => Finite (Qmin x y)
  end.

(** [Math.max(a, b)] *)
Definition Math_max (a b : number) : number :=
  match a, b with
  | NaN, _ | _, NaN => NaN
  | Infinity false, _ | _, Infinity false => Infinity false
  | Infinity true, y => y
  | x, Infinity true => x
  | Finite x, Finite y => Finite (Qmax x y)
  end.

(** [a < b]: false as soon as an operand is NaN. *)
Definition js_lt (a b : number) : bool :=
  match a, b with
  | NaN, _ | _, NaN => false
  | Infinity true, Infinity true => false
  | Infinity true, _ => true
  | _, Infinity true => false
  | Infinity false, _ => false
  | _, Infinity false => true
  | Finite x, Finite y => Qltb x y
  end.

Definition Qis_zero (q : Q) : bool := Z.eqb (Qnum q) 0.
Definition Qis_neg (q : Q) : bool := Z.ltb (Qnum q) 0.

(** [a * b] *)
Definition js_mul (a b : number) : number :=
  match a, b with
  | NaN, _ | _, NaN => NaN
  | Infinity n, Infinity m => Infinity (xorb n m)
  | Infinity n, Finite y =>
      if Qis_zero y then NaN else Infinity (xorb n (Qis_neg y))
  | Finite x, Infinity m =>
      if Qis_zero x then NaN else Infinity (xorb (Qis_neg x) m)
  | Finite x, Finite y => Finite (x * y)
  end.

(** Truncation toward zero, the integer part taken by [ToInt16]. *)
Definition truncate (q : Q) : Z :=
  if Qis_neg q then Qceiling q else Qfloor q.

(** Reduction modulo [2^16] into the signed 16-bit range. *)
Definition wrap16 (z : Z) : Z := (z + 32768) mod 65536 - 32768.

(** [ToInt16], the conversion applied by a store into an [Int16Array]:
    NaN and the infinities become 0, a finite value is truncated toward
    zero and reduced modulo [2^16]. *)
Definition ToInt16 (x : number) : Z :=
  match x with
  | NaN | Infinity _ => 0
  | Finite q => wrap16 (truncate q)
  end.

(** ** Sample conversion (the loop of [onaudioprocess])

<<
      const s = Math.max(-1, Math.min(1, inputData[i]));
      pcm16[i] = s < 0 ? s * 0x8000 : s * 0x7FFF;
>> *)

Definition num (z : Z) : number := Finite (inject_Z z).

Definition clamp_sample (x : number) : number :=
  Math_max (num (-1)) (Math_min (num 1) x).

Definition convert_sample (x : number) : Z :=
  let s := clamp_sample x in
  ToInt16 (if js_lt s (num 0) then js_mul s (num 32768) else js_mul s (num 32767)).

(** The whole block: [pcm16[i]] for [i < inputData.length]. *)
Definition pcm16_of (inputData : list number) : list Z :=
  map convert_sample inputData.

(** The number the loop assigns to [pcm16[i]], before the store converts
    it: [s < 0 ? s * 0x8000 : s * 0x7FFF] for the clamped sample [s]. *)
Definition scaled_sample (x : number) : number :=
  let s := clamp_sample x in
  if js_lt s (num 0) then js_mul s (num 32768) else js_mul s (num 32767).

(** The conversion as section 4.1 of the specification words it, for
    comparison with [convert_sample]: the clamped sample scaled by 32767
    (if non-negative) or 32768 (otherwise), then rounded.  [nearest_integer
    q z] says that [z] is [q] rounded to a nearest integer, whatever the
    rule for ties. *)
Definition spec_clamp (q : Q) : Q := Qmax (-1) (Qmin 1 q).

Definition spec_scaled (q : Q) : Q :=
  let s := spec_clamp q in
  if Qle_bool 0 s then s * 32767 else s * 32768.

Definition nearest_integer (q : Q) (z : Z) : Prop :=
  (Qabs (q - inject_Z z) <= 1 # 2)%Q.

(** ** JavaScript values

    The values [JSON.parse] returns, with [undefined] for absent
    properties.  An object is the list of its own properties (one entry per
    key). *)

Inductive JSValue :=
| JUndefined
| JNull
| JBool (b : bool)
| JNum (n : number)
| JStr (s : string)
| JArr (items : list JSValue)
| JObj (props : list (string * JSValue)).

(** Truthiness ([ToBoolean]). *)
Definition truthy (v : JSValue) : bool :=
  match v with
  | JUndefined | JNull => false
  | JBool b => b
  | JNum NaN => false
  | JNum (Infinity _) => true
  | JNum (Finite q) => negb (Qis_zero q)
  | JStr s => negb (String.eqb s "")
  | JArr _ | JObj _ => true
  end.

(** [a || b] *)
Definition js_or (a b : JSValue) : JSValue := if truthy a then a else b.

Definition nullish (v : JSValue) : bool :=
  match v with
  | JUndefined | JNull => true
  | _ => false
  end.

Fixpoint lookup_prop (k : string) (props : list (string * JSValue)) : JSValue :=
  match props with
  | [] => JUndefined
  | (k', v) :: rest => if String.eqb k' k then v else lookup_prop k rest
  end.

(** [v.k] for a [v] that is neither [null] nor [undefined] (on those the
    access throws a TypeError, which the callers below handle before they
    use [prop]).  The names read by [main.js] ([type], [channel],
    [alternatives], [transcript], [is_final], [speech_final], [error]) are
    not properties of arrays, strings, numbers or booleans. *)
Definition prop (v : JSValue) (k : string) : JSValue :=
  match v with
  | JObj props => lookup_prop k props
  | _ => JUndefined
  end.

(** [v[0]] for a [v] that is neither [null] nor [undefined].  On a string
    it is the string of its first character; every use below reads a
    property of the result, which a string does not have. *)
Definition index0 (v : JSValue) : JSValue :=
  match v with
  | JArr (x :: _) => x
  | JObj props => lookup_prop "0" props
  | JStr (String c _) => JStr (String c EmptyString)
  | _ => JUndefined
  end.

(** Optional chaining: [v?.k] and [v?.[0]]. *)
Definition opt_prop (v : JSValue) (k : string) : JSValue :=
  if nullish v then JUndefined else prop v k.

Definition opt_index0 (v : JSValue) : JSValue :=
  if nullish v then JUndefined else index0 v.

(** [x === 'literal'] *)
Definition strict_eq_str (v : JSValue) (s : string) : bool :=
  match v with
  | JStr s' => String.eqb s' s
  | _ => false
  end.

Definition js_of_N (n : N) : JSValue := JNum (num (Z.of_N n)).

(** ** The page

    The elements of [elements] that the code reads or writes, each with the
    attributes it uses.  [textContent] fields hold the value assigned (the
    DOM keeps its string conversion); a [hidden] flag says whether the class
    list contains ['hidden'].  All elements are taken to exist in the page,
    except [#empty-state], which the code itself tests for. *)

Inductive Node :=
| Elem (tag className : string)
| TextNode (text : string).

(** A child of [#transcript-container]: the [#empty-state] element, or an
    item built by [addTranscriptItem] ([interim] says whether its class
    list contains ['transcript-item--interim']). *)
Inductive Child :=
| EmptyState
| Item (interim : bool) (timestamp : string) (text : JSValue).

Record Control := { value : string; disabled : bool }.
Record Button := { btn_disabled : bool; btn_children : list Node }.
Record Badge := { className : string; badge_children : list Node }.
Record Label := { textContent : JSValue; color : string }.

Record Elements := {
  modelSelect : Control;
  languageInput : Control;
  connectOverlay_hidden : bool;
  connectBtn : Button;
  disconnectContainer_hidden : bool;
  transcriptContainer_hidden : bool;
  transcriptContainer_children : list Child;
  emptyState_hidden : option bool;   (* [None]: there is no such element *)
  connectionStatus : Badge;
  micStatus : Label;
  currentModel : JSValue;
  currentLanguage : JSValue;
  messageCount : JSValue;
  finalCount : JSValue
}.

Definition set_modelSelect (x : Control) (e : Elements) : Elements :=
  {| modelSelect := x; languageInput := languageInput e;
     connectOverlay_hidden := connectOverlay_hidden e;
     connectBtn := connectBtn e;
     disconnectContainer_hidden := disconnectContainer_hidden e;
     transcriptContainer_hidden := transcriptContainer_hidden e;
     transcriptContainer_children := transcriptContainer_children e;
     emptyState_hidden := emptyState_hidden e;
     connectionStatus := connectionStatus e; micStatus := micStatus e;
     currentModel := currentModel e; currentLanguage := currentLanguage e;
     messageCount := messageCount e; finalCount := finalCount e |}.
Definition set_languageInput (x : Control) (e : Elements) : Elements :=
  {| modelSelect := modelSelect e; languageInput := x;
     connectOverlay_hidden := connectOverlay_hidden e;
     connectBtn := connectBtn e;
     disconnectContainer_hidden := disconnectContainer_hidden e;
     transcriptContainer_hidden := transcriptContainer_hidden e;
     transcriptContainer_children := transcriptContainer_children e;
     emptyState_hidden := emptyState_hidden e;
     connectionStatus := connectionStatus e; micStatus := micStatus e;
     currentModel := currentModel e; currentLanguage := currentLanguage e;
     messageCount := messageCount e; finalCount := finalCount e |}.
Definition set_connectOverlay_hidden (x : bool) (e : Elements) : Elements :=
  {| modelSelect := modelSelect e; languageInput := languageInput e;
     connectOverlay_hidden := x; connectBtn := connectBtn e;
     disconnectContainer_hidden := disconnectContainer_hidden e;
     transcriptContainer_hidden := transcriptContainer_hidden e;
     transcriptContainer_children := transcriptContainer_children e;
     emptyState_hidden := emptyState_hidden e;
     connectionStatus := connectionStatus e; micStatus := micStatus e;
     currentModel := currentModel e; currentLanguage := currentLanguage e;
     messageCount := messageCount e; finalCount := finalCount e |}.
Definition set_connectBtn (x : Button) (e : Elements) : Elements :=
  {| modelSelect := modelSelect e; languageInput := languageInput e;
     connectOverlay_hidden := connectOverlay_hidden e; connectBtn := x;
     disconnectContainer_hidden := disconnectContainer_hidden e;
     transcriptContainer_hidden := transcriptContainer_hidden e;
     transcriptContainer_children := transcriptContainer_children e;
     emptyState_hidden := emptyState_hidden e;
     connectionStatus := connectionStatus e; micStatus := micStatus e;
     currentModel := currentModel e; currentLanguage := currentLanguage e;
     messageCount := messageCount e; finalCount := finalCount e |}.
Definition set_disconnectContainer_hidden (x : bool) (e : Elements) : Elements :=
  {| modelSelect := modelSelect e; languageInput := languageInput e;
     connectOverlay_hidden := connectOverlay_hidden e;
     connectBtn := connectBtn e; disconnectContainer_hidden := x;
     transcriptContainer_hidden := transcriptContainer_hidden e;
     transcriptContainer_children := transcriptContainer_children e;
     emptyState_hidden := emptyState_hidden e;
     connectionStatus := connectionStatus e; micStatus := micStatus e;
     currentModel := currentModel e; currentLanguage := currentLanguage e;
     messageCount := messageCount e; finalCount := finalCount e |}.
Definition set_transcriptContainer_hidden (x : bool) (e : Elements) : Elements :=
  {| modelSelect := modelSelect e; languageInput := languageInput e;
     connectOverlay_hidden := connectOverlay_hidden e;
     connectBtn := connectBtn e;
     disconnectContainer_hidden := disconnectContainer_hidden e;
     transcriptContainer_hidden := x;
     transcriptContainer_children := transcriptContainer_children e;
     emptyState_hidden := emptyState_hidden e;
     connectionStatus := connectionStatus e; micStatus := micStatus e;
     currentModel := currentModel e; currentLanguage := currentLanguage e;
     messageCount := messageCount e; finalCount := finalCount e |}.
Definition set_transcriptContainer_children (x : list Child) (e : Elements) : Elements :=
  {| modelSelect := modelSelect e; languageInput := languageInput e;
     connectOverlay_hidden := connectOverlay_hidden e;
     connectBtn := connectBtn e;
     disconnectContainer_hidden := disconnectContainer_hidden e;
     transcriptContainer_hidden := transcriptContainer_hidden e;
     transcriptContainer_children := x;
     emptyState_hidden := emptyState_hidden e;
     connectionStatus := connectionStatus e; micStatus := micStatus e;
     currentModel := currentModel e; currentLanguage := currentLanguage e;
     messageCount := messageCount e; finalCount := finalCount e |}.
Definition set_emptyState_hidden (x : option bool) (e : Elements) : Elements :=
  {| modelSelect := modelSelect e; languageInput := languageInput e;
     connectOverlay_hidden := connectOverlay_hidden e;
     connectBtn := connectBtn e;
     disconnectContainer_hidden := disconnectContainer_hidden e;
     transcriptContainer_hidden := transcriptContainer_hidden e;
     transcriptContainer_children := transcriptContainer_children e;
     emptyState_hidden := x; connectionStatus := connectionStatus e;
     micStatus := micStatus e; currentModel := currentModel e;
     currentLanguage := currentLanguage e; messageCount := messageCount e;
     finalCount := finalCount e |}.
Definition set_connectionStatus (x : Badge) (e : Elements) : Elements :=
  {| modelSelect := modelSelect e; languageInput := languageInput e;
     connectOverlay_hidden := connectOverlay_hidden e;
     connectBtn := connectBtn e;
     disconnectContainer_hidden := disconnectContainer_hidden e;
     transcriptContainer_hidden := transcriptContainer_hidden e;
     transcriptContainer_children := transcriptContainer_children e;
     emptyState_hidden := emptyState_hidden e; connectionStatus := x;
     micStatus := micStatus e; currentModel := currentModel e;
     currentLanguage := currentLanguage e; messageCount := messageCount e;
     finalCount := finalCount e |}.
Definition set_micStatus (x : Label) (e : Elements) : Elements :=
  {| modelSelect := modelSelect e; languageInput := languageInput e;
     connectOverlay_hidden := connectOverlay_hidden e;
     connectBtn := connectBtn e;
     disconnectContainer_hidden := disconnectContainer_hidden e;
     transcriptContainer_hidden := transcriptContainer_hidden e;
     transcriptContainer_children := transcriptContainer_children e;
     emptyState_hidden := emptyState_hidden e;
     connectionStatus := connectionStatus e; micStatus := x;
     currentModel := currentModel e; currentLanguage := currentLanguage e;
     messageCount := messageCount e; finalCount := finalCount e |}.
Definition set_currentModel (x : JSValue) (e : Elements) : Elements :=
  {| modelSelect := modelSelect e; languageInput := languageInput e;
     connectOverlay_hidden := connectOverlay_hidden e;
     connectBtn := connectBtn e;
     disconnectContainer_hidden := disconnectContainer_hidden e;
     transcriptContainer_hidden := transcriptContainer_hidden e;
     transcriptContainer_children := transcriptContainer_children e;
     emptyState_hidden := emptyState_hidden e;
     connectionStatus := connectionStatus e; micStatus := micStatus e;
     currentModel := x; currentLanguage := currentLanguage e;
     messageCount := messageCount e; finalCount := finalCount e |}.
Definition set_currentLanguage (x : JSValue) (e : Elements) : Elements :=
  {| modelSelect := modelSelect e; languageInput := languageInput e;
     connectOverlay_hidden := connectOverlay_hidden e;
     connectBtn := connectBtn e;
     disconnectContainer_hidden := disconnectContainer_hidden e;
     transcriptContainer_hidden := transcriptContainer_hidden e;
     transcriptContainer_children := transcriptContainer_children e;
     emptyState_hidden := emptyState_hidden e;
     connectionStatus := connectionStatus e; micStatus := micStatus e;
     currentModel := currentModel e; currentLanguage := x;
     messageCount := messageCount e; finalCount := finalCount e |}.
Definition set_messageCount (x : JSValue) (e : Elements) : Elements :=
  {| modelSelect := modelSelect e; languageInput := languageInput e;
     connectOverlay_hidden := connectOverlay_hidden e;
     connectBtn := connectBtn e;
     disconnectContainer_hidden := disconnectContainer_hidden e;
     transcriptContainer_hidden := transcriptContainer_hidden e;
     transcriptContainer_children := transcriptContainer_children e;
     emptyState_hidden := emptyState_hidden e;
     connectionStatus := connectionStatus e; micStatus := micStatus e;
     currentModel := currentModel e; currentLanguage := currentLanguage e;
     messageCount := x; finalCount := finalCount e |}.
Definition set_finalCount (x : JSValue) (e : Elements) : Elements :=
  {| modelSelect := modelSelect e; languageInput := languageInput e;
     connectOverlay_hidden := connectOverlay_hidden e;
     connectBtn := connectBtn e;
     disconnectContainer_hidden := disconnectContainer_hidden e;
     transcriptContainer_hidden := transcriptContainer_hidden e;
     transcriptContainer_children := transcriptContainer_children e;
     emptyState_hidden := emptyState_hidden e;
     connectionStatus := connectionStatus e; micStatus := micStatus e;
     currentModel := currentModel e; currentLanguage := currentLanguage e;
     messageCount := messageCount e; finalCount := x |}.

(** ** Host objects and the [state] object *)

Inductive ReadyState := CONNECTING | OPEN | CLOSING | CLOSED.

(** A [WebSocket] created by [connect]: its URL, its ready state, the
    frames handed to [send] (oldest first) and the arguments of the [close]
    call that started its closing, if any.  Its four handlers are always
    the four [handleWebSocket...] functions. *)
Record WebSocket := {
  url_protocol : string;
  url_host : string;
  url_params : list (string * string);
  binaryType : string;
  readyState : ReadyState;
  sent : list (list Z);
  close_args : option (Z * string)
}.

Record MediaStream := { tracks_stopped : bool }.

(** A [ScriptProcessorNode] made by [startMicrophone], with the
    [audioChunkCount] its callback closes over. *)
Record ScriptProcessor := {
  source_stream : nat;
  output_connected : bool;
  audioChunkCount : N
}.

Inductive ContextState := suspended | running.

Record AudioContext := { sampleRate : Z; context_state : ContextState }.

(** The [state] object.  [ws], [mediaStream] and [audioProcessor] are
    references into the world below; the counters of [stats] are natural
    numbers (they are incremented by one from zero, far below [2^53]). *)
Record State := {
  ws : option nat;
  isConnected : bool;
  audioContext : option AudioContext;
  mediaStream : option nat;
  audioProcessor : option nat;
  stats_messages : N;
  stats_finals : N;
  config_model : string;
  config_language : string
}.

Definition set_ws (x : option nat) (s : State) : State :=
  {| ws := x; isConnected := isConnected s; audioContext := audioContext s;
     mediaStream := mediaStream s; audioProcessor := audioProcessor s;
     stats_messages := stats_messages s; stats_finals := stats_finals s;
     config_model := config_model s; config_language := config_language s |}.
Definition set_isConnected (x : bool) (s : State) : State :=
  {| ws := ws s; isConnected := x; audioContext := audioContext s;
     mediaStream := mediaStream s; audioProcessor := audioProcessor s;
     stats_messages := stats_messages s; stats_finals := stats_finals s;
     config_model := config_model s; config_language := config_language s |}.
Definition set_audioContext (x : option AudioContext) (s : State) : State :=
  {| ws := ws s; isConnected := isConnected s; audioContext := x;
     mediaStream := mediaStream s; audioProcessor := audioProcessor s;
     stats_messages := stats_messages s; stats_finals := stats_finals s;
     config_model := config_model s; config_language := config_language s |}.
Definition set_mediaStream (x : option nat) (s : State) : State :=
  {| ws := ws s; isConnected := isConnected s;
     audioContext := audioContext s; mediaStream := x;
     audioProcessor := audioProcessor s; stats_messages := stats_messages s;
     stats_finals := stats_finals s; config_model := config_model s;
     config_language := config_language s |}.
Definition set_audioProcessor (x : option nat) (s : State) : State :=
  {| ws := ws s; isConnected := isConnected s;
     audioContext := audioContext s; mediaStream := mediaStream s;
     audioProcessor := x; stats_messages := stats_messages s;
     stats_finals := stats_finals s; config_model := config_model s;
     config_language := config_language s |}.
Definition set_stats_messages (x : N) (s : State) : State :=
  {| ws := ws s; isConnected := isConnected s;
     audioContext := audioContext s; mediaStream := mediaStream s;
     audioProcessor := audioProcessor s; stats_messages := x;
     stats_finals := stats_finals s; config_model := config_model s;
     config_language := config_language s |}.
Definition set_stats_finals (x : N) (s : State) : State :=
  {| ws := ws s; isConnected := isConnected s;
     audioContext := audioContext s; mediaStream := mediaStream s;
     audioProcessor := audioProcessor s; stats_messages := stats_messages s;
     stats_finals := x; config_model := config_model s;
     config_language := config_language s |}.
Definition set_config_model (x : string) (s : State) : State :=
  {| ws := ws s; isConnected := isConnected s;
     audioContext := audioContext s; mediaStream := mediaStream s;
     audioProcessor := audioProcessor s; stats_messages := stats_messages s;
     stats_finals := stats_finals s; config_model := x;
     config_language := config_language s |}.
Definition set_config_language (x : string) (s : State) : State :=
  {| ws := ws s; isConnected := isConnected s;
     audioContext := audioContext s; mediaStream := mediaStream s;
     audioProcessor := audioProcessor s; stats_messages := stats_messages s;
     stats_finals := stats_finals s; config_model := config_model s;
     config_language := x |}.

Inductive Level := Log | Warn | Error.

(** The world a handler runs in: the [state] object, the page, the host
    objects created so far, what was written to the console and shown by
    [alert], the number of pending [setTimeout] callbacks, and
    [window.location]. *)
Record World := {
  state : State;
  elements : Elements;
  sockets : list WebSocket;
  streams : list MediaStream;
  processors : list ScriptProcessor;
  console : list (Level * string);
  alerts : list string;
  timers : nat;
  location_protocol : string;
  location_host : string
}.

Definition on_state (f : State -> State) (w : World) : World :=
  {| state := f (state w); elements := elements w; sockets := sockets w;
     streams := streams w; processors := processors w; console := console w;
     alerts := alerts w; timers := timers w;
     location_protocol := location_protocol w;
     location_host := location_host w |}.
Definition on_elements (f : Elements -> Elements) (w : World) : World :=
  {| state := state w; elements := f (elements w); sockets := sockets w;
     streams := streams w; processors := processors w; console := console w;
     alerts := alerts w; timers := timers w;
     location_protocol := location_protocol w;
     location_host := location_host w |}.
Definition on_sockets (f : list WebSocket -> list WebSocket) (w : World) : World :=
  {| state := state w; elements := elements w; sockets := f (sockets w);
     streams := streams w; processors := processors w; console := console w;
     alerts := alerts w; timers := timers w;
     location_protocol := location_protocol w;
     location_host := location_host w |}.
Definition on_streams (f : list MediaStream -> list MediaStream) (w : World) : World :=
  {| state := state w; elements := elements w; sockets := sockets w;
     streams := f (streams w); processors := processors w;
     console := console w; alerts := alerts w; timers := timers w;
     location_protocol := location_protocol w;
     location_host := location_host w |}.
Definition on_processors (f : list ScriptProcessor -> list ScriptProcessor) (w : World) : World :=
  {| state := state w; elements := elements w; sockets := sockets w;
     streams := streams w; processors := f (processors w);
     console := console w; alerts := alerts w; timers := timers w;
     location_protocol := location_protocol w;
     location_host := location_host w |}.
Definition on_console (f : list (Level * string) -> list (Level * string)) (w : World) : World :=
  {| state := state w; elements := elements w; sockets := sockets w;
     streams := streams w; processors := processors w;
     console := f (console w); alerts := alerts w; timers := timers w;
     location_protocol := location_protocol w;
     location_host := location_host w |}.
Definition on_alerts (f : list string -> list string) (w : World) : World :=
  {| state := state w; elements := elements w; sockets := sockets w;
     streams := streams w; processors := processors w; console := console w;
     alerts := f (alerts w); timers := timers w;
     location_protocol := location_protocol w;
     location_host := location_host w |}.
Definition on_timers (f : nat -> nat) (w : World) : World :=
  {| state := state w; elements := elements w; sockets := sockets w;
     streams := streams w; processors := processors w; console := console w;
     alerts := alerts w; timers := f (timers w);
     location_protocol := location_protocol w;
     location_host := location_host w |}.

(** [console.log], [console.error]: the entry keeps the fixed label of the
    call, not the values printed after it. *)
Definition console_log (label : string) : World -> World :=
  on_console (fun c => c ++ [(Log, label)]).
Definition console_error (label : string) : World -> World :=
  on_console (fun c => c ++ [(Error, label)]).

(** [showError(message)]: [alert(message)]. *)
Definition showError (message : string) : World -> World :=
  on_alerts (fun a => a ++ [message]).

(** ** UI updates *)

Definition updateConnectionStatus (connected : bool) (text : string)
  : Elements -> Elements :=
  set_connectionStatus
    {| className := if connected
                    then "status-badge status-badge--connected"
                    else "status-badge status-badge--disconnected";
       badge_children :=
         [ Elem "span" (if connected
                        then "status-indicator status-indicator--connected"
                        else "status-indicator status-indicator--disconnected");
           TextNode text ] |}.

Definition updateMicrophoneStatus (active : JSValue) : Elements -> Elements :=
  match active with
  | JBool true =>
      set_micStatus {| textContent := JStr "Active";
                       color := "var(--dg-primary, #13ef95)" |}
  | JBool false =>
      set_micStatus {| textContent := JStr "Inactive"; color := "" |}
  | _ =>
      set_micStatus {| textContent := active; color := "" |}
  end.

Definition resetConnectButton : Elements -> Elements :=
  set_connectBtn
    {| btn_disabled := false;
       btn_children := [ Elem "i" "fa-solid fa-plug"; TextNode " Connect" ] |}.

(** [lastItem && lastItem !== elements.emptyState &&
    lastItem.classList.contains('transcript-item--interim')] *)
Definition last_is_interim (children : list Child) : bool :=
  match last children with
  | Some (Item true _ _) => true
  | _ => false
  end.

(** [addTranscriptItem(text, isFinal)]; [now] is the string given by
    [new Date().toLocaleTimeString()].  The scroll position set at the end
    is not part of the model. *)
Definition addTranscriptItem (text isFinal : JSValue) (now : string)
  (e : Elements) : Elements :=
  let e :=
    match emptyState_hidden e with
    | Some false => set_emptyState_hidden (Some true) e
    | _ => e
    end in
  let item := Item (negb (truthy isFinal)) now text in
  let children := transcriptContainer_children e in
  if negb (truthy isFinal) && last_is_interim children
  then set_transcriptContainer_children (removelast children ++ [item]) e
  else set_transcriptContainer_children (children ++ [item]) e.

(** ** The message handler *)

(** [data.channel?.alternatives?.[0]?.transcript || data.transcript || ''] *)
Definition extract_transcript (data : JSValue) : JSValue :=
  js_or
    (js_or
       (opt_prop (opt_index0 (opt_prop (prop data "channel") "alternatives"))
          "transcript")
       (prop data "transcript"))
    (JStr "").

(** [data.is_final || data.speech_final || false] *)
Definition extract_isFinal (data : JSValue) : JSValue :=
  js_or (js_or (prop data "is_final") (prop data "speech_final")) (JBool false).

(** [data.type === 'Results' || data.channel] *)
Definition is_result_frame (data : JSValue) : bool :=
  strict_eq_str (prop data "type") "Results" || truthy (prop data "channel").

(** [state.stats.messages++; elements.messageCount.textContent = ...] *)
Definition count_message (w : World) : World :=
  let n := N.succ (stats_messages (state w)) in
  on_elements (set_messageCount (js_of_N n))
    (on_state (set_stats_messages n) w).

Definition count_final (w : World) : World :=
  let n := N.succ (stats_finals (state w)) in
  on_elements (set_finalCount (js_of_N n))
    (on_state (set_stats_finals n) w).

Section MessageHandler.

(** [event.data] and [JSON.parse]: the payload type and the parser are
    those of the host; [None] stands for the SyntaxError thrown on a
    payload that is not valid JSON. *)
Context {Payload : Type} (JSON_parse : Payload -> option JSValue).

(** [handleWebSocketMessage(event)].  Everything runs inside [try]: a
    SyntaxError of [JSON.parse] and the TypeError of [data.type] on a
    payload that parses to [null] both end in the [catch] clause. *)
Definition handleWebSocketMessage (event_data : Payload) (now : string)
  (w : World) : World :=
  match JSON_parse event_data with
  | None => console_error "Error parsing message:" w
  | Some data =>
      let w := count_message w in
      if nullish data then console_error "Error parsing message:" w
      else if is_result_frame data then
        let transcript := extract_transcript data in
        let isFinal := extract_isFinal data in
        if truthy transcript then
          let w := on_elements (addTranscriptItem transcript isFinal now) w in
          if truthy isFinal then count_final w else w
        else w
      else if strict_eq_str (prop data "type") "Metadata" then
        console_log "Metadata:" w
      else if truthy (prop data "error") then
        console_error "Deepgram error:" w
      else w
  end.

End MessageHandler.

(** ** Connection lifecycle *)

(** [ws.close(code, reason)]: nothing on a socket that is closing or
    closed, otherwise the socket starts closing. *)
Definition ws_close (code : Z) (reason : string) (s : WebSocket) : WebSocket :=
  match readyState s with
  | CLOSING | CLOSED => s
  | _ =>
      {| url_protocol := url_protocol s; url_host := url_host s;
         url_params := url_params s; binaryType := binaryType s;
         readyState := CLOSING; sent := sent s;
         close_args := Some (code, reason) |}
  end.

(** [ws.send(frame)] on an open socket. *)
Definition ws_send (frame : list Z) (s : WebSocket) : WebSocket :=
  {| url_protocol := url_protocol s; url_host := url_host s;
     url_params := url_params s; binaryType := binaryType s;
     readyState := readyState s; sent := sent s ++ [frame];
     close_args := close_args s |}.

Definition set_readyState (r : ReadyState) (s : WebSocket) : WebSocket :=
  {| url_protocol := url_protocol s; url_host := url_host s;
     url_params := url_params s; binaryType := binaryType s;
     readyState := r; sent := sent s; close_args := close_args s |}.

(** [connect()]; [ctor_throws] says whether [new WebSocket(wsUrl)] throws. *)
Definition connect (ctor_throws : bool) (w : World) : World :=
  if isConnected (state w) then w
  else
    let w := on_state (fun s =>
               set_config_language (value (languageInput (elements w)))
                 (set_config_model (value (modelSelect (elements w))) s)) w in
    let w := on_elements (set_connectBtn
               {| btn_disabled := true;
                  btn_children := [ Elem "i" "fa-solid fa-spinner fa-spin";
                                    TextNode " Connecting..." ] |}) w in
    let protocol :=
      if String.eqb (location_protocol w) "https:" then "wss:" else "ws:" in
    let params :=
      [ ("model", config_model (state w));
        ("language", config_language (state w));
        ("encoding", "linear16");
        ("sample_rate", "16000");
        ("channels", "1") ] in
    let w := console_log "Connecting with params:" w in
    if ctor_throws then
      on_elements resetConnectButton
        (showError "Failed to connect to server"
           (console_error "Connection error:" w))
    else
      let socket :=
        {| url_protocol := protocol; url_host := location_host w;
           url_params := params; binaryType := "arraybuffer";
           readyState := CONNECTING; sent := []; close_args := None |} in
      on_state (set_ws (Some (length (sockets w))))
        (on_sockets (fun l => l ++ [socket]) w).

(** The page updates at the end of [disconnect()]: status, configuration
    controls, connect overlay. *)
Definition disconnect_ui (e : Elements) : Elements :=
  resetConnectButton
    (set_connectOverlay_hidden false
       (set_disconnectContainer_hidden true
          (set_transcriptContainer_hidden true
             (set_languageInput
                {| value := value (languageInput e); disabled := false |}
                (set_modelSelect
                   {| value := value (modelSelect e); disabled := false |}
                   (set_currentLanguage (JStr "-")
                      (set_currentModel (JStr "-")
                         (updateMicrophoneStatus (JBool false)
                            (updateConnectionStatus false "Disconnected"
                               e))))))))).

(** [disconnect()] *)
Definition disconnect (w : World) : World :=
  let w :=
    match ws (state w) with
    | Some i =>
        on_state (set_ws None)
          (on_sockets (alter (ws_close 1000 "User disconnected") i) w)
    | None => w
    end in
  let w :=
    match audioProcessor (state w) with
    | Some p =>
        on_state (set_audioProcessor None)
          (on_processors
             (alter (fun n => {| source_stream := source_stream n;
                                 output_connected := false;
                                 audioChunkCount := audioChunkCount n |}) p) w)
    | None => w
    end in
  let w :=
    match mediaStream (state w) with
    | Some m =>
        on_state (set_mediaStream None)
          (on_streams (alter (fun _ => {| tracks_stopped := true |}) m) w)
    | None => w
    end in
  let w := on_state (set_isConnected false) w in
  on_elements disconnect_ui w.

(** How far an asynchronous function got: it is waiting at an [await], it
    returned, or it threw. *)
Inductive Flow := Waiting | Returned | Threw.

(** The result of [new AudioContext({ sampleRate: 16000 })]. *)
Inductive ContextResult := ContextThrows | ContextCreated (st : ContextState).

Definition context_initialized : string := "Audio context initialized".

(** [initializeAudioContext()], up to its [await] of [resume()]. *)
Definition initializeAudioContext (r : ContextResult) (w : World)
  : World * Flow :=
  match audioContext (state w) with
  | Some _ => (w, Returned)
  | None =>
      match r with
      | ContextThrows =>
          (showError "Failed to initialize audio system"
             (console_error "Failed to initialize audio context:" w), Returned)
      | ContextCreated suspended =>
          (on_state (set_audioContext
             (Some {| sampleRate := 16000; context_state := suspended |})) w,
           Waiting)
      | ContextCreated running =>
          (console_log context_initialized
             (on_state (set_audioContext
                (Some {| sampleRate := 16000; context_state := running |})) w),
           Returned)
      end
  end.

(** [initializeAudioContext()], from the moment [resume()] settles. *)
Definition initializeAudioContext_resumed (resolved : bool) (w : World)
  : World :=
  if resolved then
    console_log context_initialized
      (on_state (fun s =>
         set_audioContext
           (match audioContext s with
            | Some c => Some {| sampleRate := sampleRate c;
                                context_state := running |}
            | None => None
            end) s) w)
  else
    showError "Failed to initialize audio system"
      (console_error "Failed to initialize audio context:" w).

(** [startMicrophone()], up to its [await] of [getUserMedia]. *)
Definition startMicrophone (w : World) : World * Flow :=
  match mediaStream (state w) with
  | Some _ => (console_log "Microphone already active" w, Returned)
  | None =>
      (console_log "Requesting microphone access..."
         (on_elements (updateMicrophoneStatus (JStr "Requesting...")) w),
       Waiting)
  end.

(** [startMicrophone()], from [createMediaStreamSource] on.  A [null]
    audio context or media stream makes [createMediaStreamSource] throw a
    TypeError. *)
Definition startMicrophone_pipeline (w : World) : World * Flow :=
  match audioContext (state w), mediaStream (state w) with
  | Some _, Some m =>
      let p := length (processors w) in
      let w := on_processors (fun l =>
                 l ++ [ {| source_stream := m; output_connected := false;
                           audioChunkCount := 0 |} ]) w in
      let w := on_state (set_audioProcessor (Some p)) w in
      let w := on_processors
                 (alter (fun n => {| source_stream := source_stream n;
                                     output_connected := true;
                                     audioChunkCount := audioChunkCount n |}) p)
                 w in
      let w := console_log "Audio processing pipeline connected" w in
      let w := on_elements (updateMicrophoneStatus (JBool true)) w in
      (console_log "Microphone active - ready to transcribe" w, Returned)
  | _, _ => (w, Threw)
  end.

(** [startMicrophone()], from the moment [getUserMedia] resolves with a
    new stream, up to a possible [await] inside [initializeAudioContext]. *)
Definition startMicrophone_granted (r : ContextResult) (w : World)
  : World * Flow :=
  let m := length (streams w) in
  let w := on_streams (fun l => l ++ [ {| tracks_stopped := false |} ]) w in
  let w := on_state (set_mediaStream (Some m)) w in
  let w := console_log "Microphone access granted" w in
  match audioContext (state w) with
  | Some _ => startMicrophone_pipeline w
  | None =>
      match initializeAudioContext r w with
      | (w, Waiting) => (w, Waiting)
      | (w, _) => startMicrophone_pipeline w
      end
  end.

(** [onConnected()], after [await startMicrophone()] returned. *)
Definition onConnected_reveal (w : World) : World :=
  console_log "Fully connected - microphone active, ready to transcribe"
    (on_elements (fun e =>
       updateConnectionStatus true "Connected"
         (set_transcriptContainer_hidden false
            (set_disconnectContainer_hidden false
               (set_connectOverlay_hidden true e)))) w).

(** [onConnected()], the [catch] clause. *)
Definition onConnected_catch (w : World) : World :=
  disconnect
    (showError
       "Failed to access microphone. Please allow microphone access and try again."
       (on_state (set_isConnected false)
          (console_error "Failed to initialize audio:" w))).

Definition onConnected_after (r : World * Flow) : World :=
  match r with
  | (w, Waiting) => w
  | (w, Returned) => onConnected_reveal w
  | (w, Threw) => onConnected_catch w
  end.

(** [onConnected()], up to its first [await] that has to wait. *)
Definition onConnected (r : ContextResult) (w : World) : World :=
  let w := console_log "WebSocket connected, requesting microphone..." w in
  let w := on_state (set_isConnected true) w in
  let w := on_elements (fun e =>
             set_languageInput
               {| value := value (languageInput e); disabled := true |}
               (set_modelSelect
                  {| value := value (modelSelect e); disabled := true |}
                  (set_currentLanguage (JStr (config_language (state w)))
                     (set_currentModel (JStr (config_model (state w)))
                        (updateConnectionStatus false
                           "Requesting microphone..." e))))) w in
  match initializeAudioContext r w with
  | (w, Waiting) => w
  | (w, _) => onConnected_after (startMicrophone w)
  end.

(** The continuations of [onConnected()]: [resume()] settled while
    [onConnected] itself awaited [initializeAudioContext], [getUserMedia]
    resolved or rejected, and [resume()] settled while [startMicrophone]
    awaited [initializeAudioContext]. *)
Definition onConnected_resumed (resolved : bool) (w : World) : World :=
  onConnected_after (startMicrophone (initializeAudioContext_resumed resolved w)).

Definition onConnected_granted (r : ContextResult) (w : World) : World :=
  onConnected_after (startMicrophone_granted r w).

Definition onConnected_denied (w : World) : World := onConnected_catch w.

Definition startMicrophone_resumed (resolved : bool) (w : World) : World :=
  onConnected_after
    (startMicrophone_pipeline (initializeAudioContext_resumed resolved w)).

Definition handleWebSocketOpen (r : ContextResult) (w : World) : World :=
  onConnected r (console_log "WebSocket connected" w).

Definition handleWebSocketError (w : World) : World :=
  on_elements (updateConnectionStatus false "Error")
    (console_error "WebSocket error:" w).

(** [handleWebSocketClose(event)]; the callback it passes to [setTimeout]
    is [reconnect_timeout]. *)
Definition handleWebSocketClose (w : World) : World :=
  on_timers S
    (on_elements (fun e =>
       updateMicrophoneStatus (JBool false)
         (updateConnectionStatus false "Disconnected" e))
       (on_state (set_isConnected false)
          (console_log "WebSocket closed:" w))).

Definition reconnect_timeout (w : World) : World :=
  if isConnected (state w) then w
  else
    on_elements (fun e =>
      resetConnectButton
        (set_connectOverlay_hidden false
           (set_disconnectContainer_hidden true
              (set_transcriptContainer_hidden true e)))) w.

(** ** The audio callback *)

Definition set_audioChunkCount (n : N) (p : ScriptProcessor) : ScriptProcessor :=
  {| source_stream := source_stream p; output_connected := output_connected p;
     audioChunkCount := n |}.

Definition channel_open (w : World) : bool :=
  match ws (state w) with
  | Some i =>
      match sockets w !! i with
      | Some s => match readyState s with OPEN => true | _ => false end
      | None => false
      end
  | None => false
  end.

(** [onaudioprocess] of processor [p] on the block [inputData]; the frame
    sent is the block of 16-bit samples.  [send] on an open socket does not
    throw, so the [catch] clause is never entered. *)
Definition onaudioprocess (p : nat) (inputData : list number) (w : World)
  : World :=
  if negb (isConnected (state w)) then w
  else
    let pcm16 := pcm16_of inputData in
    if channel_open w then
      let w := on_sockets (fun l =>
                 match ws (state w) with
                 | Some i => alter (ws_send pcm16) i l
                 | None => l
                 end) w in
      let n := N.succ (default 0%N (audioChunkCount <$> processors w !! p)) in
      let w := on_processors (alter (set_audioChunkCount n) p) w in
      if N.eqb n 1 then console_log "First audio chunk sent" w
      else if N.eqb (n mod 50) 0 then console_log "Sent audio chunks to server" w
      else w
    else w.

(** ** Events

    What the host can deliver to the page, and [step], which runs the
    handler registered for it.  An event that the host cannot deliver in
    the current world (a click on a disabled button, an event of a socket
    or processor that does not exist, a message on a socket that is not
    connected, a timer when none is pending) leaves the world unchanged.
    A processor receives [audioprocess] events as long as it exists: the
    callback, not the host, decides whether a block is sent. *)

Inductive Event {Payload : Type} :=
| ClickConnect (ctor_throws : bool)
| ClickDisconnect
| BeforeUnload
| SocketOpen (i : nat) (r : ContextResult)
| SocketMessage (i : nat) (event_data : Payload) (now : string)
| SocketError (i : nat)
| SocketClose (i : nat)
| ResumeSettledInOnConnected (resolved : bool)
| MicrophoneGranted (r : ContextResult)
| MicrophoneDenied
| ResumeSettledInStartMicrophone (resolved : bool)
| AudioProcess (p : nat) (inputData : list number)
| TimerFired.

Arguments Event : clear implicits.

Definition socket_state (i : nat) (w : World) : option ReadyState :=
  readyState <$> sockets w !! i.

Section Step.

Context {Payload : Type} (JSON_parse : Payload -> option JSValue).

Definition step (e : Event Payload) (w : World) : World :=
  match e with
  | ClickConnect ctor_throws =>
      if btn_disabled (connectBtn (elements w)) then w
      else connect ctor_throws w
  | ClickDisconnect => disconnect w
  | BeforeUnload => disconnect w
  | SocketOpen i r =>
      match socket_state i w with
      | Some CONNECTING =>
          handleWebSocketOpen r
            (on_sockets (alter (set_readyState OPEN) i) w)
      | _ => w
      end
  | SocketMessage i event_data now =>
      match socket_state i w with
      | Some OPEN | Some CLOSING =>
          handleWebSocketMessage JSON_parse event_data now w
      | _ => w
      end
  | SocketError i =>
      match socket_state i w with
      | Some CLOSED | None => w
      | Some _ => handleWebSocketError w
      end
  | SocketClose i =>
      match socket_state i w with
      | Some CLOSED | None => w
      | Some _ =>
          handleWebSocketClose
            (on_sockets (alter (set_readyState CLOSED) i) w)
      end
  | ResumeSettledInOnConnected resolved => onConnected_resumed resolved w
  | MicrophoneGranted r => onConnected_granted r w
  | MicrophoneDenied => onConnected_denied w
  | ResumeSettledInStartMicrophone resolved => startMicrophone_resumed resolved w
  | AudioProcess p inputData =>
      match processors w !! p with
      | Some _ => onaudioprocess p inputData w
      | None => w
      end
  | TimerFired =>
      match timers w with
      | O => w
      | S n => reconnect_timeout (on_timers (fun _ => n) w)
      end
  end.

(** A sequence of events, delivered from left to right. *)
Definition run (es : list (Event Payload)) (w : World) : World :=
  fold_left (fun w e => step e w) es w.

End Step.

(** The world when the script has loaded: the [state] literal of
    [main.js], no host object yet, and the page as its markup gives it. *)
Definition initial_state : State :=
  {| ws := None; isConnected := false; audioContext := None;
     mediaStream := None; audioProcessor := None;
     stats_messages := 0; stats_finals := 0;
     config_model := "nova-3"; config_language := "en" |}.

Definition initial_world (page : Elements) (protocol host : string) : World :=
  {| state := initial_state; elements := page;
     sockets := []; streams := []; processors := [];
     console := [(Log, "Live Transcription frontend initialized")];
     alerts := []; timers := 0;
     location_protocol := protocol; location_host := host |}.

(** ** Notions used by the properties *)

(** The two counters of [state.stats]. *)
Definition counters (w : World) : N * N :=
  (stats_messages (state w), stats_finals (state w)).

Definition transcript (w : World) : list Child :=
  transcriptContainer_children (elements w).

Definition is_interim (c : Child) : bool :=
  match c with
  | Item true _ _ => true
  | _ => false
  end.



Definition ends_with_interim (l : list Child) : Prop :=
  exists init timestamp text, l = init ++ [Item true timestamp text].

(** The invariant of section 3 of the specification: an interim entry can
    only be the last entry of the transcript. *)
Definition interim_only_at_tail (l : list Child) : Prop :=
  forall i c, l !! i = Some c -> is_interim c = true -> S i = length l.

(** No interim entry is directly followed by another interim entry. *)
Fixpoint no_adjacent_interims (l : list Child) : bool :=
  match l with
  | a :: (b :: _) as rest =>
      negb (is_interim a && is_interim b) && no_adjacent_interims rest
  | _ => true
  end.

(** The frames of the scenario of section 8 of the specification. *)
Definition results_frame (text : string) (is_final : bool) : JSValue :=
  JObj [ ("type", JStr "Results");
         ("channel",
          JObj [ ("alternatives", JArr [ JObj [ ("transcript", JStr text) ] ]) ]);
         ("is_final", JBool is_final) ].



(** Every frame handed to [send] so far, socket by socket. *)
Definition all_sent (w : World) : list (list Z) :=
  concat (sent <$> sockets w).

Definition is_socket_open {Payload : Type} (e : Event Payload) : bool :=
  match e with
  | SocketOpen _ _ => true
  | _ => false
  end.

(** The states of section 4.4 of the specification, read off the [state]
    object: Idle has no channel, no input stream, no processor and the
    connected flag unset; ChannelConnecting holds a channel that is still
    connecting; Streaming has the connected flag set and a processor
    installed. *)
Definition is_idle (w : World) : bool :=
  match ws (state w), mediaStream (state w), audioProcessor (state w) with
  | None, None, None => negb (isConnected (state w))
  | _, _, _ => false
  end.

Definition is_channel_connecting (w : World) : bool :=
  negb (isConnected (state w)) &&
  match ws (state w) with
  | Some i =>
      match socket_state i w with
      | Some CONNECTING => true
      | _ => false
      end
  | None => false
  end.

Definition is_streaming (w : World) : bool :=
  isConnected (state w) &&
  match audioProcessor (state w) with
  | Some _ => true
  | None => false
  end.

(** The channels that are connecting or open. *)
Definition live_channels (w : World) : list WebSocket :=
  List.filter
    (fun s => match readyState s with
              | CONNECTING | OPEN => true
              | _ => false
              end)
    (sockets w).

(** A page in the presentation [disconnect()] leaves, with an empty
    transcript, used for the concrete runs below. *)
Definition fresh_page : Elements :=
  {| modelSelect := {| value := "nova-3"; disabled := false |};
     languageInput := {| value := "en"; disabled := false |};
     connectOverlay_hidden := false;
     connectBtn :=
       {| btn_disabled := false;
          btn_children := [ Elem "i" "fa-solid fa-plug"; TextNode " Connect" ] |};
     disconnectContainer_hidden := true;
     transcriptContainer_hidden := true;
     transcriptContainer_children := [ EmptyState ];
     emptyState_hidden := Some false;
     connectionStatus :=
       {| className := "status-badge status-badge--disconnected";
          badge_children :=
            [ Elem "span" "status-indicator status-indicator--disconnected";
              TextNode "Disconnected" ] |};
     micStatus := {| textContent := JStr "Inactive"; color := "" |};
     currentModel := JStr "-";
     currentLanguage := JStr "-";
     messageCount := JStr "0";
     finalCount := JStr "0" |}.

Definition fresh_world : World := initial_world fresh_page "https:" "localhost".

(** Payloads given by what [JSON.parse] makes of them. *)
Definition decoded (payload : option JSValue) : option JSValue := payload.

(** Concrete runs from [fresh_world]. *)

(** A session up to Streaming: click, channel open, microphone granted. *)
Definition session_start : list (Event (option JSValue)) :=
  [ ClickConnect false;
    SocketOpen 0 (ContextCreated running);
    MicrophoneGranted (ContextCreated running) ].

(** The scenario of section 8: an interim ["hello"], then a final
    ["hello world"]. *)
Definition hello_scenario : list (Event (option JSValue)) :=
  session_start ++
  [ SocketMessage 0 (Some (results_frame "hello" false)) "10:00:00";
    SocketMessage 0 (Some (results_frame "hello world" true)) "10:00:01" ].

(** The first half of it: the interim entry is on display. *)
Definition interim_shown : list (Event (option JSValue)) :=
  session_start ++
  [ SocketMessage 0 (Some (results_frame "hello" false)) "10:00:00" ].

(** The same, followed by a disconnect and a second connection that
    opens. *)
Definition second_session : list (Event (option JSValue)) :=
  hello_scenario ++
  [ ClickDisconnect; ClickConnect false; SocketOpen 1 (ContextCreated running) ].

(** The remote end closes the first channel while the microphone prompt is
    still open; the user connects again and then grants both requests, so
    two pipelines are built and only the second is referenced by [state].
    After a disconnect and a third connection whose channel has opened, the
    first processor is still connected to the destination. *)
Definition leaked_pipeline : list (Event (option JSValue)) :=
  [ ClickConnect false;
    SocketOpen 0 (ContextCreated running);
    SocketClose 0;
    TimerFired;
    ClickConnect false;
    SocketOpen 1 (ContextCreated running);
    MicrophoneGranted (ContextCreated running);
    MicrophoneGranted (ContextCreated running);
    ClickDisconnect;
    ClickConnect false;
    SocketOpen 2 (ContextCreated running) ].

(** The page is left (a [beforeunload] that does not unload it) while
    [onConnected] waits for [resume()]; when [resume()] settles,
    [startMicrophone] asks for the microphone. *)
Definition interrupted_resume : list (Event (option JSValue)) :=
  [ ClickConnect false;
    SocketOpen 0 (ContextCreated suspended);
    BeforeUnload;
    ResumeSettledInOnConnected true ].

(** The close event of a channel closed by [disconnect()] arrives after the
    next channel has opened: it clears the connected flag, the timer
    re-enables the connect button, and a click opens a third channel next
    to the second. *)
Definition late_close : list (Event (option JSValue)) :=
  session_start ++
  [ ClickDisconnect;
    ClickConnect false;
    SocketOpen 1 (ContextCreated running);
    SocketClose 0;
    TimerFired;
    ClickConnect false ].

(** The remote end closes the channel of a running session, and the user
    disconnects and connects again within two seconds: the timer of the
    close event fires while the new channel is still connecting. *)
Definition stale_timer : list (Event (option JSValue)) :=
  session_start ++
  [ SocketClose 0; ClickDisconnect; ClickConnect false; TimerFired ].

(** ** Metadata loading

    [loadMetadata()] relabels four elements of the page that no other
    function touches; they are kept in a record of their own.  A field is
    [None] when the page has no such element ([getElementById] gave
    [null]), and otherwise holds the value last assigned: the text content
    of [#pageTitle] and [#headerTitle], the [content] attribute of
    [#pageDescription], the [href] of [#repoLink]. *)

Record MetadataElements := {
  pageTitle : option JSValue;
  pageDescription : option JSValue;
  headerTitle : option JSValue;
  repoLink : option JSValue
}.

(** What [fetch('/metadata')] and [response.json()] come to: the request
    is rejected, the response is not [ok], reading the body as JSON is
    rejected, or the body parses to a value. *)
Inductive FetchResult :=
| FetchRejected
| ResponseNotOk
| BodyRejected
| BodyParsed (metadata : JSValue).

Definition console_warn (label : string) : World -> World :=
  on_console (fun c => c ++ [(Warn, label)]).

(** [if (field && element) element.attribute = field]: the assignment is
    made when the field is truthy and the element exists. *)
Definition assign_if (field : JSValue) (element : option JSValue)
  : option JSValue :=
  match element with
  | Some old => if truthy field then Some field else Some old
  | None => None
  end.

(** [loadMetadata()].  On a body that parses to [null] the first property
    access throws a TypeError, which ends in the [catch] clause like a
    rejected request. *)
Definition loadMetadata (r : FetchResult) (m : MetadataElements) (w : World)
  : MetadataElements * World :=
  match r with
  | FetchRejected | BodyRejected =>
      (m, console_warn "Error loading metadata, using defaults:" w)
  | ResponseNotOk =>
      (m, console_warn "Failed to load metadata, using defaults" w)
  | BodyParsed metadata =>
      if nullish metadata then
        (m, console_warn "Error loading metadata, using defaults:" w)
      else
        ({| pageTitle := assign_if (prop metadata "title") (pageTitle m);
            pageDescription :=
              assign_if (prop metadata "description") (pageDescription m);
            headerTitle := assign_if (prop metadata "title") (headerTitle m);
            repoLink := assign_if (prop metadata "repository") (repoLink m) |},
         console_log "Metadata loaded:" w)
  end.

(** ** Further notions used by the properties *)

(** The number of final entries of a transcript. *)
Fixpoint final_entries (l : list Child) : nat :=
  match l with
  | [] => 0%nat
  | Item false _ _ :: rest => S (final_entries rest)
  | _ :: rest => final_entries rest
  end.


(** The counter labels of the page show the counters of [state.stats]. *)
Definition messages_shown (w : World) : Prop :=
  messageCount (elements w) = js_of_N (stats_messages (state w)).

Definition finals_shown (w : World) : Prop :=
  finalCount (elements w) = js_of_N (stats_finals (state w)).

Definition is_message {Payload : Type} (e : Event Payload) : bool :=
  match e with
  | SocketMessage _ _ _ => true
  | _ => false
  end.

(** ** Theorems *)

(** *** Sample conversion *)

Lemma Qis_neg_true q : Qis_neg q = true <-> (q < 0)%Q.
Proof. unfold Qis_neg, Qlt. rewrite Z.ltb_lt. simpl. lia. Qed.

Lemma Qis_neg_false q : Qis_neg q = false <-> (0 <= q)%Q.
Proof. unfold Qis_neg, Qle. rewrite Z.ltb_ge. simpl. lia. Qed.

Lemma truncate_inject z : truncate (inject_Z z) = z.
Proof.
  unfold truncate. destruct (Qis_neg (inject_Z z)).
  - apply Qceiling_Z.
  - apply Qfloor_Z.
Qed.

Lemma truncate_monotone x y : (x <= y)%Q -> truncate x <= truncate y.
Proof.
  intros Hxy. unfold truncate.
  destruct (Qis_neg x) eqn:Hx; destruct (Qis_neg y) eqn:Hy.
  - now apply Qceiling_resp_le.
  - apply Qis_neg_true in Hx. apply Qis_neg_false in Hy.
    transitivity 0.
    + rewrite <- (Qceiling_Z 0). apply Qceiling_resp_le.
      change (inject_Z 0) with 0%Q. lra.
    + rewrite <- (Qfloor_Z 0). apply Qfloor_resp_le.
      change (inject_Z 0) with 0%Q. lra.
  - apply Qis_neg_false in Hx. apply Qis_neg_true in Hy. lra.
  - now apply Qfloor_resp_le.
Qed.

Lemma Qle_bool_cases x y :
  (Qle_bool x y = true /\ (x <= y)%Q) \/ (Qle_bool x y = false /\ (y < x)%Q).
Proof.
  destruct (Qle_bool x y) eqn:H.
  - left. split; [reflexivity | now apply Qle_bool_iff].
  - right. split; [reflexivity |].
    apply Qnot_le_lt. rewrite <- Qle_bool_iff. congruence.
Qed.

Ltac case_Qle x y :=
  let E := fresh "E" in
  let H := fresh "H" in
  destruct (Qle_bool_cases x y) as [[E H] | [E H]]; rewrite ?E in *.

Lemma clamp_finite q : clamp_sample (Finite q) = Finite (spec_clamp q).
Proof. reflexivity. Qed.

Lemma spec_clamp_bounds q : (-1 <= spec_clamp q <= 1)%Q.
Proof.
  unfold spec_clamp, Qmax, Qmin.
  case_Qle 1%Q q; [case_Qle (-1)%Q 1%Q | case_Qle (-1)%Q q]; lra.
Qed.

Lemma spec_clamp_monotone a b : (a <= b)%Q -> (spec_clamp a <= spec_clamp b)%Q.
Proof.
  intros Hab. unfold spec_clamp, Qmax, Qmin.
  case_Qle 1%Q a; case_Qle 1%Q b;
    repeat match goal with
           | |- context [Qle_bool ?x ?y] => case_Qle x y
           end; lra.
Qed.

Lemma spec_clamp_idempotent q : spec_clamp (spec_clamp q) = spec_clamp q.
Proof.
  unfold spec_clamp, Qmax, Qmin.
  destruct (Qle_bool 1 q) eqn:E1.
  - reflexivity.
  - destruct (Qle_bool (-1) q) eqn:E2.
    + rewrite E1, E2. reflexivity.
    + reflexivity.
Qed.

Lemma clamp_sample_idempotent x : clamp_sample (clamp_sample x) = clamp_sample x.
Proof.
  destruct x as [| [|] | q]; try reflexivity.
  rewrite !clamp_finite. f_equal. apply spec_clamp_idempotent.
Qed.

Lemma spec_scaled_bounds q : (-32768 <= spec_scaled q <= 32767)%Q.
Proof.
  unfold spec_scaled. pose proof (spec_clamp_bounds q) as [Hl Hu].
  case_Qle 0%Q (spec_clamp q); lra.
Qed.

Lemma spec_scaled_monotone a b : (a <= b)%Q -> (spec_scaled a <= spec_scaled b)%Q.
Proof.
  intros Hab. apply spec_clamp_monotone in Hab.
  pose proof (spec_clamp_bounds a). pose proof (spec_clamp_bounds b).
  unfold spec_scaled.
  case_Qle 0%Q (spec_clamp a); case_Qle 0%Q (spec_clamp b); lra.
Qed.

Lemma truncate_scaled_range q : -32768 <= truncate (spec_scaled q) <= 32767.
Proof.
  pose proof (spec_scaled_bounds q) as [Hl Hu]. split.
  - rewrite <- (truncate_inject (-32768)). apply truncate_monotone. exact Hl.
  - rewrite <- (truncate_inject 32767). apply truncate_monotone. exact Hu.
Qed.

Lemma wrap16_in_range z : -32768 <= z <= 32767 -> wrap16 z = z.
Proof. intros H. unfold wrap16. rewrite Z.mod_small by lia. lia. Qed.

(** On a finite sample the program computes the truncation of the clamped,
    scaled sample; the reduction modulo [2^16] never applies. *)
Lemma convert_finite q : convert_sample (Finite q) = truncate (spec_scaled q).
Proof.
  rewrite <- (wrap16_in_range (truncate (spec_scaled q)))
    by apply truncate_scaled_range.
  unfold convert_sample. rewrite clamp_finite. unfold spec_scaled.
  cbn [js_lt num]. unfold Qltb.
  change (inject_Z 0) with 0%Q.
  destruct (Qle_bool 0 (spec_clamp q)); reflexivity.
Qed.

(** C5, as stated, fails: the sample 0.25 scales to 8191.75, whose nearest
    integer is 8192, and the program stores 8191. *)
Lemma convert_sample_not_rounded :
  convert_sample (Finite (1 # 4)) = 8191 /\
  ~ nearest_integer (spec_scaled (1 # 4)) (convert_sample (Finite (1 # 4))).
Proof.
  split; [reflexivity |].
  unfold nearest_integer. intros H. vm_compute in H. apply H. reflexivity.
Qed.

(** C5, amended: the converter clamps the sample to [-1, 1], scales it by
    32767 (if non-negative) or 32768 (otherwise) and truncates toward zero,
    the conversion of the [Int16Array] store; it does not round.  NaN gives
    0, and a sample outside [-1, 1] gives the output of its clamped value
    (the infinities those of 1 and -1). *)
Theorem convert_sample_truncates :
  forall x : number,
    convert_sample x = convert_sample (clamp_sample x) /\
    convert_sample x =
      match x with
      | NaN => 0
      | Infinity negative => if negative then -32768 else 32767
      | Finite q => truncate (spec_scaled q)
      end.
Proof.
  intros x. split.
  - unfold convert_sample. rewrite clamp_sample_idempotent. reflexivity.
  - destruct x as [| [|] | q]; try reflexivity. apply convert_finite.
Qed.

Example convert_two_is_convert_one :
  convert_sample (num 2) = convert_sample (num 1) /\
  convert_sample (num 1) = 32767 /\ convert_sample (num (-1)) = -32768.
Proof. repeat split; reflexivity. Qed.

(** C6: for samples in [-1, 1] the output lies in [-32768, 32767] and is
    monotonic in the sample. *)
Theorem convert_sample_range_monotone :
  forall s1 s2 : Q,
    (-1 <= s1)%Q -> (s1 <= s2)%Q -> (s2 <= 1)%Q ->
    -32768 <= convert_sample (Finite s1) <= 32767 /\
    -32768 <= convert_sample (Finite s2) <= 32767 /\
    convert_sample (Finite s1) <= convert_sample (Finite s2).
Proof.
  intros s1 s2 _ H12 _. rewrite !convert_finite.
  repeat split; try apply truncate_scaled_range.
  apply truncate_monotone, spec_scaled_monotone, H12.
Qed.

Lemma convert_sample_range_monotone_witness :
  -32768 <= convert_sample (Finite (-1 # 3)) <= 32767 /\
  -32768 <= convert_sample (Finite (1 # 2)) <= 32767 /\
  convert_sample (Finite (-1 # 3)) <= convert_sample (Finite (1 # 2)).
Proof.
  apply (convert_sample_range_monotone (-1 # 3) (1 # 2));
    unfold Qle; simpl; lia.
Defined.

(** *** The transcript renderer *)

Lemma addTranscriptItem_children text isFinal now e :
  transcriptContainer_children (addTranscriptItem text isFinal now e) =
  (if negb (truthy isFinal) && last_is_interim (transcriptContainer_children e)
   then removelast (transcriptContainer_children e)
   else transcriptContainer_children e)
  ++ [Item (negb (truthy isFinal)) now text].
Proof.
  unfold addTranscriptItem.
  destruct (emptyState_hidden e) as [[|]|]; cbn;
    destruct (negb (truthy isFinal)
              && last_is_interim (transcriptContainer_children e));
    reflexivity.
Qed.

Lemma last_is_interim_snoc l c : last_is_interim (l ++ [c]) = is_interim c.
Proof.
  unfold last_is_interim. rewrite last_snoc.
  destruct c as [| [|] ? ?]; reflexivity.
Qed.

Lemma last_is_interim_spec l : last_is_interim l = true <-> ends_with_interim l.
Proof.
  split.
  - destruct l as [| c l'] using rev_ind; [discriminate |].
    rewrite last_is_interim_snoc. destruct c as [| [|] ts tx]; try discriminate.
    intros _. exists l', ts, tx. reflexivity.
  - intros (init & ts & tx & ->). apply last_is_interim_snoc.
Qed.

Lemma no_adjacent_interims_snoc l c :
  no_adjacent_interims (l ++ [c]) =
  no_adjacent_interims l && negb (last_is_interim l && is_interim c).
Proof.
  induction l as [| a [| b l'] IH].
  - reflexivity.
  - cbn. unfold last_is_interim. cbn.
    destruct a as [| [|] ? ?], c as [| [|] ? ?]; reflexivity.
  - change ((a :: b :: l') ++ [c]) with (a :: (b :: l') ++ [c]).
    change (no_adjacent_interims (a :: (b :: l') ++ [c]))
      with (negb (is_interim a && is_interim b)
            && no_adjacent_interims ((b :: l') ++ [c])).
    rewrite IH.
    change (no_adjacent_interims (a :: b :: l'))
      with (negb (is_interim a && is_interim b)
            && no_adjacent_interims (b :: l')).
    replace (last_is_interim (a :: b :: l')) with (last_is_interim (b :: l')).
    + rewrite andb_assoc. reflexivity.
    + unfold last_is_interim. reflexivity.
Qed.

Lemma addTranscriptItem_no_adjacent text isFinal now e :
  no_adjacent_interims (transcriptContainer_children e) = true ->
  no_adjacent_interims
    (transcriptContainer_children (addTranscriptItem text isFinal now e)) = true.
Proof.
  intros Hinv. rewrite addTranscriptItem_children.
  set (kids := transcriptContainer_children e) in *.
  destruct (truthy isFinal) eqn:Hfin; cbn [negb andb].
  - rewrite no_adjacent_interims_snoc, Hinv. cbn.
    rewrite andb_false_r. reflexivity.
  - destruct (last_is_interim kids) eqn:Hlast.
    + apply last_is_interim_spec in Hlast as (init & ts & tx & Hk).
      rewrite Hk in *. rewrite removelast_last.
      rewrite no_adjacent_interims_snoc in Hinv |- *.
      apply andb_true_iff in Hinv as [H1 H2].
      rewrite H1. cbn in H2 |- *. exact H2.
    + rewrite no_adjacent_interims_snoc, Hinv, Hlast. reflexivity.
Qed.


(** *** The message handler *)

Lemma is_result_frame_not_nullish data :
  is_result_frame data = true -> nullish data = false.
Proof. destruct data; try reflexivity; discriminate. Qed.

Lemma js_or_falsy a b :
  truthy (js_or a b) = false <-> truthy a = false /\ truthy b = false.
Proof.
  unfold js_or. destruct (truthy a) eqn:Ha.
  - rewrite Ha. split; [discriminate | intros [? _]; discriminate].
  - split; [intros Hb; split; [reflexivity | exact Hb] | intros [_ Hb]; exact Hb].
Qed.


Lemma js_or_falsy_l a b : truthy a = false -> js_or a b = b.
Proof. unfold js_or. intros ->. reflexivity. Qed.

(** The extracted transcript is falsy exactly when it is the empty string. *)
Lemma extract_transcript_falsy data :
  truthy (extract_transcript data) = false <-> extract_transcript data = JStr "".
Proof.
  unfold extract_transcript. split.
  - intros H. apply js_or_falsy in H as [H _]. apply js_or_falsy_l, H.
  - intros ->. reflexivity.
Qed.


Section MessageFacts.

Context {Payload : Type} (JSON_parse : Payload -> option JSValue).

(** What the handler does with a result frame that has a transcript. *)
Lemma handle_rendered event_data data now w :
  JSON_parse event_data = Some data ->
  is_result_frame data = true ->
  truthy (extract_transcript data) = true ->
  transcript (handleWebSocketMessage JSON_parse event_data now w) =
    transcriptContainer_children
      (addTranscriptItem (extract_transcript data) (extract_isFinal data) now
         (elements w)) /\
  counters (handleWebSocketMessage JSON_parse event_data now w) =
    (N.succ (stats_messages (state w)),
     if truthy (extract_isFinal data) then N.succ (stats_finals (state w))
     else stats_finals (state w)).
Proof.
  intros Hp Hr Ht. unfold handleWebSocketMessage, transcript. rewrite Hp.
  rewrite (is_result_frame_not_nullish _ Hr), Hr, Ht.
  destruct (truthy (extract_isFinal data));
    cbn [elements count_final on_elements on_state count_message state
         transcriptContainer_children set_finalCount];
    rewrite !addTranscriptItem_children; split; reflexivity.
Qed.

Lemma handle_transcript event_data now w :
  transcript (handleWebSocketMessage JSON_parse event_data now w) = transcript w \/
  exists text isFinal,
    transcript (handleWebSocketMessage JSON_parse event_data now w) =
    transcriptContainer_children
      (addTranscriptItem text isFinal now (elements w)).
Proof.
  unfold handleWebSocketMessage.
  destruct (JSON_parse event_data) as [data|] eqn:Hp; [| left; reflexivity].
  destruct (nullish data); [left; reflexivity |].
  destruct (is_result_frame data) eqn:Hr.
  - destruct (truthy (extract_transcript data)) eqn:Ht; [| left; reflexivity].
    right. exists (extract_transcript data), (extract_isFinal data).
    destruct (handle_rendered event_data data now w Hp Hr Ht) as [H _].
    unfold handleWebSocketMessage in H.
    rewrite Hp, (is_result_frame_not_nullish _ Hr), Hr, Ht in H. exact H.
  - left.
    destruct (strict_eq_str (prop data "type") "Metadata"); [reflexivity |].
    destruct (truthy (prop data "error")); reflexivity.
Qed.

Lemma handle_counters event_data now w :
  (stats_messages (state w)
   <= stats_messages (state (handleWebSocketMessage JSON_parse event_data now w)))%N /\
  (stats_finals (state w)
   <= stats_finals (state (handleWebSocketMessage JSON_parse event_data now w)))%N.
Proof.
  unfold handleWebSocketMessage.
  destruct (JSON_parse event_data) as [data|]; [| split; reflexivity].
  destruct (nullish data); [cbn; lia |].
  destruct (is_result_frame data).
  - destruct (truthy (extract_transcript data)); [| cbn; lia].
    destruct (truthy (extract_isFinal data)); cbn; lia.
  - destruct (strict_eq_str (prop data "type") "Metadata"); [cbn; lia |].
    destruct (truthy (prop data "error")); cbn; lia.
Qed.

Lemma handle_keeps_channel event_data now w :
  isConnected (state (handleWebSocketMessage JSON_parse event_data now w)) =
    isConnected (state w) /\
  sockets (handleWebSocketMessage JSON_parse event_data now w) = sockets w.
Proof.
  unfold handleWebSocketMessage.
  destruct (JSON_parse event_data) as [data|]; [| split; reflexivity].
  destruct (nullish data); [split; reflexivity |].
  destruct (is_result_frame data).
  - destruct (truthy (extract_transcript data)); [| split; reflexivity].
    destruct (truthy (extract_isFinal data)); split; reflexivity.
  - destruct (strict_eq_str (prop data "type") "Metadata"); [split; reflexivity |].
    destruct (truthy (prop data "error")); split; reflexivity.
Qed.

End MessageFacts.




(** C8: a frame whose payload is not valid JSON is logged and dropped: the
    handler returns normally, the [state] object (both counters included)
    and the page (the transcript included) are unchanged, and the only
    effect is one error line on the console. *)
Theorem malformed_frame_discarded :
  forall (Payload : Type) (JSON_parse : Payload -> option JSValue)
         (event_data : Payload) (now : string) (w : World),
    JSON_parse event_data = None ->
    handleWebSocketMessage JSON_parse event_data now w =
      console_error "Error parsing message:" w /\
    state (handleWebSocketMessage JSON_parse event_data now w) = state w /\
    elements (handleWebSocketMessage JSON_parse event_data now w) = elements w /\
    counters (handleWebSocketMessage JSON_parse event_data now w) = counters w /\
    transcript (handleWebSocketMessage JSON_parse event_data now w) = transcript w /\
    console (handleWebSocketMessage JSON_parse event_data now w) =
      console w ++ [(Error, "Error parsing message:")].
Proof.
  intros Payload JSON_parse event_data now w Hp.
  unfold handleWebSocketMessage. rewrite Hp. repeat split; reflexivity.
Qed.

Lemma malformed_frame_discarded_witness :
  handleWebSocketMessage decoded None "10:00:02"
    (run decoded hello_scenario fresh_world) =
    console_error "Error parsing message:" (run decoded hello_scenario fresh_world) /\
  counters
    (handleWebSocketMessage decoded None "10:00:02"
       (run decoded hello_scenario fresh_world)) = (2%N, 1%N).
Proof.
  destruct (malformed_frame_discarded (option JSValue) decoded None "10:00:02"
              (run decoded hello_scenario fresh_world) eq_refl)
    as (H & _ & _ & Hc & _).
  split; [exact H | rewrite Hc; reflexivity].
Defined.

(** C10: every frame that parses increments the message counter, whatever
    its shape; a result frame whose extracted transcript is the empty
    string renders no entry and leaves the final-results counter alone,
    also when it is marked final. *)
Theorem empty_transcript_counts_message_only :
  forall (Payload : Type) (JSON_parse : Payload -> option JSValue)
         (event_data : Payload) (data : JSValue) (now : string) (w : World),
    JSON_parse event_data = Some data ->
    stats_messages (state (handleWebSocketMessage JSON_parse event_data now w)) =
      N.succ (stats_messages (state w)) /\
    (is_result_frame data = true ->
     extract_transcript data = JStr "" ->
     transcript (handleWebSocketMessage JSON_parse event_data now w) = transcript w /\
     stats_finals (state (handleWebSocketMessage JSON_parse event_data now w)) =
       stats_finals (state w)).
Proof.
  intros Payload JSON_parse event_data data now w Hp.
  unfold handleWebSocketMessage. rewrite Hp. split.
  - destruct (nullish data); [reflexivity |].
    destruct (is_result_frame data).
    + destruct (truthy (extract_transcript data)); [| reflexivity].
      destruct (truthy (extract_isFinal data)); reflexivity.
    + destruct (strict_eq_str (prop data "type") "Metadata"); [reflexivity |].
      destruct (truthy (prop data "error")); reflexivity.
  - intros Hr Ht. apply extract_transcript_falsy in Ht.
    rewrite (is_result_frame_not_nullish _ Hr), Hr, Ht. split; reflexivity.
Qed.

Lemma empty_transcript_counts_message_only_witness :
  truthy (extract_isFinal (results_frame "" true)) = true /\
  stats_messages
    (state (handleWebSocketMessage decoded (Some (results_frame "" true))
              "10:00:02" (run decoded hello_scenario fresh_world))) = 3%N /\
  transcript
    (handleWebSocketMessage decoded (Some (results_frame "" true))
       "10:00:02" (run decoded hello_scenario fresh_world)) =
    transcript (run decoded hello_scenario fresh_world) /\
  stats_finals
    (state (handleWebSocketMessage decoded (Some (results_frame "" true))
              "10:00:02" (run decoded hello_scenario fresh_world))) = 1%N.
Proof.
  destruct (empty_transcript_counts_message_only (option JSValue) decoded
              (Some (results_frame "" true)) (results_frame "" true) "10:00:02"
              (run decoded hello_scenario fresh_world) eq_refl) as [Hm Hr].
  destruct (Hr eq_refl eq_refl) as [Ht Hf].
  split; [reflexivity |].
  split; [rewrite Hm; reflexivity |].
  split; [exact Ht | rewrite Hf; reflexivity].
Defined.

Example metadata_and_error_frames_counted :
  stats_messages
    (state (run decoded
              (session_start ++
               [ SocketMessage 0 (Some (JObj [("type", JStr "Metadata")])) "10:00:00";
                 SocketMessage 0 (Some (JObj [("error", JStr "bad request")])) "10:00:01";
                 SocketMessage 0 (Some JNull) "10:00:02";
                 SocketMessage 0 (Some (JNum (num 7))) "10:00:03";
                 SocketMessage 0 None "10:00:04" ])
              fresh_world)) = 4%N.
Proof. reflexivity. Qed.

(** *** Events *)

(** Case analysis on the scrutinee of an innermost [match] of the goal. *)
Ltac split_match :=
  match goal with
  | |- context [match ?x with _ => _ end] =>
      lazymatch x with
      | context [match _ with _ => _ end] => fail
      | _ => let E := fresh "E" in destruct x eqn:E
      end
  end.

Ltac crush :=
  repeat (cbn in *; try congruence; try reflexivity; try split_match).

Ltac unfold_handlers :=
  unfold handleWebSocketOpen, handleWebSocketError, handleWebSocketClose,
    reconnect_timeout, onConnected_resumed, onConnected_granted,
    onConnected_denied, startMicrophone_resumed, onConnected,
    startMicrophone_granted, onConnected_after, startMicrophone_pipeline,
    startMicrophone, initializeAudioContext_resumed, initializeAudioContext,
    onConnected_reveal, onConnected_catch, disconnect, connect,
    onaudioprocess in *.

Lemma sent_ws_close code reason s : sent (ws_close code reason s) = sent s.
Proof. unfold ws_close. destruct (readyState s); reflexivity. Qed.

Lemma fmap_sent_alter f i (l : list WebSocket) :
  (forall s, sent (f s) = sent s) ->
  sent <$> alter f i l = sent <$> l.
Proof.
  intros Hf. revert i.
  induction l as [| x l IH]; intros [| i]; cbn; try reflexivity.
  - rewrite Hf. reflexivity.
  - f_equal. apply IH.
Qed.

Section StepFacts.

Context {Payload : Type} (JSON_parse : Payload -> option JSValue).

(** No event decreases a counter. *)
Lemma step_counters (e : Event Payload) w :
  (stats_messages (state w) <= stats_messages (state (step JSON_parse e w)))%N /\
  (stats_finals (state w) <= stats_finals (state (step JSON_parse e w)))%N.
Proof.
  destruct e; unfold step;
    try (destruct (socket_state i w) as [[| | |]|]; try (split; reflexivity));
    try apply handle_counters.
  all: unfold_handlers.
  all: crush; try (split; reflexivity).
Qed.

Lemma run_counters (es : list (Event Payload)) w :
  (stats_messages (state w) <= stats_messages (state (run JSON_parse es w)))%N /\
  (stats_finals (state w) <= stats_finals (state (run JSON_parse es w)))%N.
Proof.
  revert w. induction es as [| e es IH]; intros w.
  - split; reflexivity.
  - destruct (step_counters e w) as [H1 H2].
    destruct (IH (step JSON_parse e w)) as [H3 H4].
    split; etransitivity; eassumption.
Qed.

(** The transcript changes only through [addTranscriptItem]. *)
Lemma step_transcript (e : Event Payload) w :
  transcript (step JSON_parse e w) = transcript w \/
  exists text isFinal now,
    transcript (step JSON_parse e w) =
    transcriptContainer_children
      (addTranscriptItem text isFinal now (elements w)).
Proof.
  destruct e as [b | | | i r | i event_data now | i | i | b | r | | b
                | p inputData |];
    unfold step.
  5: { destruct (socket_state i w) as [[| | |]|]; try (left; reflexivity);
       destruct (handle_transcript JSON_parse event_data now w)
         as [H | (t & f & H)];
       [ left; exact H | right; exists t, f, now; exact H
       | left; exact H | right; exists t, f, now; exact H ]. }
  all: left; unfold transcript; unfold_handlers; crush.
Qed.

Lemma run_no_adjacent (es : list (Event Payload)) w :
  no_adjacent_interims (transcript w) = true ->
  no_adjacent_interims (transcript (run JSON_parse es w)) = true.
Proof.
  revert w. induction es as [| e es IH]; intros w H.
  - exact H.
  - apply IH. destruct (step_transcript e w) as [-> | (t & f & n & ->)].
    + exact H.
    + apply addTranscriptItem_no_adjacent, H.
Qed.

(** While the connected flag is unset, no event other than the opening of
    a channel sets it, and none sends a frame. *)
Lemma step_quiet (e : Event Payload) w :
  is_socket_open e = false ->
  isConnected (state w) = false ->
  isConnected (state (step JSON_parse e w)) = false /\
  all_sent (step JSON_parse e w) = all_sent w.
Proof.
  intros He Hc.
  destruct e as [b | | | i r | i event_data now | i | i | b | r | | b
                | p inputData |];
    try discriminate He; unfold step, all_sent.
  4: { destruct (handle_keeps_channel JSON_parse event_data now w) as [H1 H2].
       destruct (socket_state i w) as [[| | |]|];
         rewrite ?H1, ?H2; split; first [exact Hc | reflexivity]. }
  all: unfold_handlers; rewrite ?Hc.
  all: crush;
       rewrite ?fmap_app, ?concat_app,
         ?fmap_sent_alter by first [apply sent_ws_close | reflexivity];
       cbn; rewrite ?app_nil_r; try (split; congruence).
Qed.

Lemma run_quiet (es : list (Event Payload)) w :
  forallb (fun e => negb (is_socket_open e)) es = true ->
  isConnected (state w) = false ->
  isConnected (state (run JSON_parse es w)) = false /\
  all_sent (run JSON_parse es w) = all_sent w.
Proof.
  revert w. induction es as [| e es IH]; intros w Hes Hc.
  - split; [exact Hc | reflexivity].
  - cbn in Hes. apply andb_true_iff in Hes as [He Hes].
    apply negb_true_iff in He.
    destruct (step_quiet e w He Hc) as [Hc' Hs].
    destruct (IH (step JSON_parse e w) Hes Hc') as [Hc'' Hs'].
    split; [exact Hc'' | rewrite <- Hs; exact Hs'].
Qed.

End StepFacts.

Lemma connect_counters b w : counters (connect b w) = counters w.
Proof. unfold connect, counters. crush. Qed.

Lemma disconnect_flag_and_sent w :
  isConnected (state (disconnect w)) = false /\
  all_sent (disconnect w) = all_sent w.
Proof.
  unfold disconnect, all_sent.
  crush; rewrite ?fmap_sent_alter by apply sent_ws_close; split; reflexivity.
Qed.

Lemma disconnect_idempotent w : disconnect (disconnect w) = disconnect w.
Proof. unfold disconnect. crush. Qed.

Lemma disconnect_ui_idempotent e : disconnect_ui (disconnect_ui e) = disconnect_ui e.
Proof. reflexivity. Qed.

(** *** Transcript entries over a session *)

(** C1, as stated, fails: in the scenario of section 8 the final frame is
    appended after the interim entry, which stays in the transcript, not at
    its tail; the final-results counter is 1. *)
Lemma hello_scenario_keeps_interim :
  transcript (run decoded hello_scenario fresh_world) =
    [ EmptyState;
      Item true "10:00:00" (JStr "hello");
      Item false "10:00:01" (JStr "hello world") ] /\
  stats_finals (state (run decoded hello_scenario fresh_world)) = 1%N /\
  ~ interim_only_at_tail (transcript (run decoded hello_scenario fresh_world)).
Proof.
  split; [reflexivity |]. split; [reflexivity |].
  intros H.
  specialize (H 1%nat (Item true "10:00:00" (JStr "hello")) eq_refl eq_refl).
  discriminate H.
Qed.

(** C1, amended: an interim entry is superseded by the next interim frame
    only.  From a transcript without adjacent interim entries (such as the
    empty one), over any sequence of events no two interim entries become
    adjacent: an interim entry is the last entry or is directly followed by
    an entry that is not interim.  A final frame is appended and leaves the
    interim entry
    before it in place: after an interim ["hello"] and a final
    ["hello world"] the transcript ends with the interim entry ["hello"]
    followed by the final entry ["hello world"], and the final-results
    counter has grown by one. *)
Theorem interim_replaced_by_interim_only :
  forall (Payload : Type) (JSON_parse : Payload -> option JSValue),
    (forall (es : list (Event Payload)) (w : World),
        no_adjacent_interims (transcript w) = true ->
        no_adjacent_interims (transcript (run JSON_parse es w)) = true) /\
    (forall (p1 p2 : Payload) (now1 now2 : string) (w : World),
        JSON_parse p1 = Some (results_frame "hello" false) ->
        JSON_parse p2 = Some (results_frame "hello world" true) ->
        transcript
          (handleWebSocketMessage JSON_parse p2 now2
             (handleWebSocketMessage JSON_parse p1 now1 w)) =
          (if last_is_interim (transcript w)
           then removelast (transcript w) else transcript w)
          ++ [ Item true now1 (JStr "hello");
               Item false now2 (JStr "hello world") ] /\
        stats_finals
          (state (handleWebSocketMessage JSON_parse p2 now2
                    (handleWebSocketMessage JSON_parse p1 now1 w))) =
          N.succ (stats_finals (state w))).
Proof.
  intros Payload JSON_parse. split.
  - intros es w. apply run_no_adjacent.
  - intros p1 p2 now1 now2 w Hp1 Hp2.
    set (w1 := handleWebSocketMessage JSON_parse p1 now1 w).
    destruct (handle_rendered JSON_parse p1 _ now1 w Hp1 eq_refl eq_refl)
      as [Ht1 Hc1].
    destruct (handle_rendered JSON_parse p2 _ now2 w1 Hp2 eq_refl eq_refl)
      as [Ht2 Hc2].
    fold w1 in Ht1, Hc1. split.
    + rewrite Ht2, addTranscriptItem_children.
      change (transcriptContainer_children (elements w1)) with (transcript w1).
      rewrite Ht1, addTranscriptItem_children.
      cbn [extract_isFinal results_frame prop lookup_prop String.eqb
           Ascii.eqb Bool.eqb js_or truthy negb andb].
      rewrite <- app_assoc. reflexivity.
    + unfold counters in Hc1, Hc2.
      apply (f_equal snd) in Hc1. apply (f_equal snd) in Hc2.
      cbn [snd] in Hc1, Hc2. rewrite Hc2, Hc1. reflexivity.
Qed.

Lemma interim_replaced_by_interim_only_witness :
  no_adjacent_interims (transcript (run decoded hello_scenario fresh_world)) = true /\
  transcript
    (handleWebSocketMessage decoded (Some (results_frame "hello world" true))
       "10:00:03"
       (handleWebSocketMessage decoded (Some (results_frame "hello" false))
          "10:00:02" (run decoded interim_shown fresh_world))) =
    [ EmptyState;
      Item true "10:00:02" (JStr "hello");
      Item false "10:00:03" (JStr "hello world") ].
Proof.
  destruct (interim_replaced_by_interim_only (option JSValue) decoded)
    as [Hinv Hscenario].
  split.
  - apply Hinv. reflexivity.
  - destruct (Hscenario (Some (results_frame "hello" false))
                (Some (results_frame "hello world" true))
                "10:00:02" "10:00:03" (run decoded interim_shown fresh_world)
                eq_refl eq_refl) as [Ht _].
    rewrite Ht. reflexivity.
Defined.

(** *** Session counters *)

(** C3, as stated, fails: a second connection starts with the counters of
    the first session. *)
Lemma second_connect_keeps_counters :
  counters
    (connect false
       (run decoded (hello_scenario ++ [ ClickDisconnect ]) fresh_world))
    = (2%N, 1%N) /\
  isConnected (state (run decoded second_session fresh_world)) = true /\
  ws (state (run decoded second_session fresh_world)) = Some 1%nat /\
  counters (run decoded second_session fresh_world) = (2%N, 1%N) /\
  counters (run decoded second_session fresh_world) <> (0%N, 0%N).
Proof. repeat split; try reflexivity. discriminate. Qed.

(** C3, amended: both counters start at zero when the script loads and are
    non-decreasing over every sequence of events; [connect()] leaves them
    as they are, and nothing resets them. *)
Theorem counters_monotone_never_reset :
  forall (Payload : Type) (JSON_parse : Payload -> option JSValue),
    (forall (es : list (Event Payload)) (w : World),
        (stats_messages (state w)
         <= stats_messages (state (run JSON_parse es w)))%N /\
        (stats_finals (state w)
         <= stats_finals (state (run JSON_parse es w)))%N) /\
    (forall (ctor_throws : bool) (w : World),
        counters (connect ctor_throws w) = counters w) /\
    (forall (page : Elements) (protocol host : string),
        counters (initial_world page protocol host) = (0%N, 0%N)).
Proof.
  intros Payload JSON_parse. split; [| split].
  - intros es w. apply run_counters.
  - intros b w. apply connect_counters.
  - reflexivity.
Qed.

(** *** The guard of [connect()] *)

(** C4, as stated, fails, by clicks and socket events alone.  In
    [stale_timer] the new channel is still connecting, the connected flag
    is unset, and the timer of the earlier close event has enabled the
    connect button again: the next click runs [connect()], which is not a
    no-op and opens a second channel next to the first. *)
Lemma connect_while_connecting_opens_second_channel :
  is_channel_connecting (run decoded stale_timer fresh_world) = true /\
  btn_disabled (connectBtn (elements (run decoded stale_timer fresh_world)))
    = false /\
  step decoded (ClickConnect false) (run decoded stale_timer fresh_world)
    <> run decoded stale_timer fresh_world /\
  readyState
    <$> sockets (run decoded (stale_timer ++ [ ClickConnect false ]) fresh_world)
    = [ CLOSED; CONNECTING; CONNECTING ] /\
  length
    (live_channels
       (run decoded (stale_timer ++ [ ClickConnect false ]) fresh_world)) = 2%nat.
Proof.
  split; [reflexivity |]. split; [reflexivity |].
  split; [| split; reflexivity].
  intros H. apply (f_equal (fun w => length (sockets w))) in H.
  vm_compute in H. discriminate H.
Qed.

(** C4, amended: [connect()] is guarded by the connected flag only.
    Called while the flag is set it is a no-op; called while the flag is
    unset it opens a new channel and makes [state.ws] reference it,
    whatever became of the channel referenced before (one more channel
    is alive afterwards).  While a channel is connecting the flag is
    unset, and only the connect button stands in the way of a second
    run: [connect()] disables it, so that a click right after it, like
    every click on the disabled button, does nothing; but
    [disconnect()], and the timer of an earlier close event when it
    fires while the flag is unset, enable the button again without
    looking at the channel. *)
Theorem connect_guarded_by_connected_flag :
  forall (Payload : Type) (JSON_parse : Payload -> option JSValue),
    (forall (ctor_throws : bool) (w : World),
        isConnected (state w) = true -> connect ctor_throws w = w) /\
    (forall (ctor_throws : bool) (w : World),
        step JSON_parse (ClickConnect ctor_throws) (connect false w) =
        connect false w) /\
    (forall (ctor_throws : bool) (w : World),
        btn_disabled (connectBtn (elements w)) = true ->
        step JSON_parse (ClickConnect ctor_throws) w = w) /\
    (forall w : World,
        isConnected (state w) = false ->
        ws (state (connect false w)) = Some (length (sockets w)) /\
        socket_state (length (sockets w)) (connect false w) = Some CONNECTING /\
        (forall i, (i < length (sockets w))%nat ->
           sockets (connect false w) !! i = sockets w !! i) /\
        length (live_channels (connect false w)) =
          S (length (live_channels w))) /\
    (forall w : World,
        isConnected (state w) = false ->
        timers w <> 0%nat ->
        btn_disabled
          (connectBtn (elements (step JSON_parse TimerFired w))) = false /\
        sockets (step JSON_parse TimerFired w) = sockets w /\
        state (step JSON_parse TimerFired w) = state w) /\
    (forall w : World,
        btn_disabled (connectBtn (elements (disconnect w))) = false).
Proof.
  intros Payload JSON_parse.
  split; [| split; [| split; [| split; [| split]]]].
  - intros b w H. unfold connect. rewrite H. reflexivity.
  - intros b w. unfold step.
    destruct (isConnected (state w)) eqn:H.
    + assert (Hw : connect false w = w) by (unfold connect; rewrite H; reflexivity).
      rewrite Hw. destruct (btn_disabled (connectBtn (elements w)));
        [reflexivity |]. unfold connect. rewrite H. reflexivity.
    + assert (Hd : btn_disabled (connectBtn (elements (connect false w))) = true)
        by (unfold connect; rewrite H; reflexivity).
      rewrite Hd. reflexivity.
  - intros b w H. unfold step. rewrite H. reflexivity.
  - intros w H. unfold connect. rewrite H. cbv zeta.
    split; [reflexivity |].
    split.
    { unfold socket_state. cbn [sockets on_state on_sockets console_log on_console on_elements].
      rewrite list_lookup_middle by reflexivity. reflexivity. }
    split.
    { intros i Hi. cbn [sockets on_state on_sockets console_log on_console on_elements].
      apply lookup_app_l. exact Hi. }
    unfold live_channels.
    cbn [sockets on_state on_sockets console_log on_console on_elements].
    rewrite List.filter_app, length_app. cbn. lia.
  - intros w H Ht. unfold step.
    destruct (timers w) as [| n]; [congruence |].
    unfold reconnect_timeout. cbn. rewrite H. repeat split; reflexivity.
  - intros w.
    assert (E : elements (disconnect w) = disconnect_ui (elements w))
      by (unfold disconnect; crush).
    rewrite E. reflexivity.
Qed.

Lemma connect_guarded_by_connected_flag_witness :
  (isConnected (state (run decoded session_start fresh_world)) = true /\
   connect false (run decoded session_start fresh_world) =
     run decoded session_start fresh_world) /\
  (is_channel_connecting
     (run decoded
        (session_start ++ [ SocketClose 0; ClickDisconnect; ClickConnect false ])
        fresh_world) = true /\
   btn_disabled
     (connectBtn
        (elements
           (step decoded TimerFired
              (run decoded
                 (session_start ++
                  [ SocketClose 0; ClickDisconnect; ClickConnect false ])
                 fresh_world)))) = false).
Proof.
  destruct (connect_guarded_by_connected_flag (option JSValue) decoded)
    as (Hflag & _ & _ & _ & Htimer & _).
  split; (split; [reflexivity |]).
  - apply Hflag. reflexivity.
  - apply Htimer; [reflexivity | discriminate].
Defined.

(** Clicks alone can leave two channels alive: the close event of the
    channel closed by [disconnect()] clears the flag of the next session. *)
Example late_close_leaves_two_channels :
  readyState <$> sockets (run decoded late_close fresh_world) =
    [ CLOSED; OPEN; CONNECTING ] /\
  ws (state (run decoded late_close fresh_world)) = Some 2%nat.
Proof. split; reflexivity. Qed.

(** *** Sending audio *)

(** C7, as stated, fails: the connected flag is set when the channel
    opens, before the microphone is acquired.  In [leaked_pipeline] the
    third session has an open channel and no stream or processor of its
    own yet, and a block delivered to the processor left connected by the
    first session is sent. *)
Lemma audio_sent_before_streaming :
  is_streaming (run decoded leaked_pipeline fresh_world) = false /\
  mediaStream (state (run decoded leaked_pipeline fresh_world)) = None /\
  output_connected <$> processors (run decoded leaked_pipeline fresh_world) !! 0%nat
    = Some true /\
  all_sent (run decoded leaked_pipeline fresh_world) = [] /\
  all_sent
    (step decoded (AudioProcess 0 [ Finite (1 # 2) ])
       (run decoded leaked_pipeline fresh_world)) = [ [ 16383 ] ].
Proof. repeat split; reflexivity. Qed.

(** C7, amended: a block is sent only while the connected flag is set and
    the channel of [state.ws] is open; otherwise the callback leaves the
    world as it is, so the block is dropped and not queued.  The flag is
    unset when the script loads and after [disconnect()], and until a
    channel opens no event sends anything.  (The flag is set when the
    channel opens, which is before Streaming.) *)
Theorem audio_sent_only_while_connected_and_open :
  forall (Payload : Type) (JSON_parse : Payload -> option JSValue),
    (forall (p : nat) (inputData : list number) (w : World),
        isConnected (state w) && channel_open w = false ->
        onaudioprocess p inputData w = w) /\
    (forall (es : list (Event Payload)) (w : World),
        forallb (fun e => negb (is_socket_open e)) es = true ->
        all_sent (run JSON_parse es (disconnect w)) = all_sent w) /\
    (forall (es : list (Event Payload)) (page : Elements) (protocol host : string),
        forallb (fun e => negb (is_socket_open e)) es = true ->
        all_sent (run JSON_parse es (initial_world page protocol host)) = []).
Proof.
  intros Payload JSON_parse. split; [| split].
  - intros p inputData w H. unfold onaudioprocess.
    destruct (isConnected (state w)); [| reflexivity].
    cbn in H |- *. rewrite H. reflexivity.
  - intros es w Hes.
    destruct (disconnect_flag_and_sent w) as [Hc Hs].
    destruct (run_quiet JSON_parse es (disconnect w) Hes Hc) as [_ H].
    rewrite H. exact Hs.
  - intros es page protocol host Hes.
    destruct (run_quiet JSON_parse es (initial_world page protocol host) Hes
                eq_refl) as [_ H].
    rewrite H. reflexivity.
Qed.

Lemma audio_sent_only_while_connected_and_open_witness :
  onaudioprocess 0 [ Finite (1 # 2) ]
    (disconnect (run decoded session_start fresh_world)) =
    disconnect (run decoded session_start fresh_world) /\
  all_sent
    (run decoded
       [ AudioProcess 0 [ Finite (1 # 2) ]; ClickConnect false;
         AudioProcess 0 [ Finite (1 # 2) ] ]
       (disconnect (run decoded session_start fresh_world))) = [] /\
  all_sent
    (run decoded [ ClickConnect false; AudioProcess 0 [ Finite (1 # 2) ] ]
       fresh_world) = [].
Proof.
  destruct (audio_sent_only_while_connected_and_open (option JSValue) decoded)
    as (Hdrop & Hafter & Hbefore).
  split; [apply Hdrop; reflexivity |].
  split.
  - rewrite Hafter; reflexivity.
  - apply (Hbefore _ fresh_page "https:" "localhost"). reflexivity.
Defined.

(** While Streaming, each block is converted and sent on the channel. *)
Example streaming_sends_blocks_in_order :
  all_sent
    (run decoded
       (session_start ++
        [ AudioProcess 0 [ Finite (1 # 2); Finite (-1 # 2) ];
          AudioProcess 0 [ num 2; NaN ] ])
       fresh_world) = [ [ 16383; -16384 ]; [ 32767; 0 ] ].
Proof. reflexivity. Qed.

(** *** [disconnect()] when idle *)

(** C9, as stated, fails: [disconnect()] rewrites the status display
    whenever it runs.  In [interrupted_resume] the state is Idle while the
    microphone status reads ["Requesting..."]; a [disconnect()] there (the
    one [onConnected] makes if the request is then denied) changes it to
    ["Inactive"]. *)
Lemma disconnect_when_idle_rewrites_page :
  is_idle (run decoded interrupted_resume fresh_world) = true /\
  textContent (micStatus (elements (run decoded interrupted_resume fresh_world)))
    = JStr "Requesting..." /\
  textContent
    (micStatus (elements (disconnect (run decoded interrupted_resume fresh_world))))
    = JStr "Inactive" /\
  disconnect (run decoded interrupted_resume fresh_world)
    <> run decoded interrupted_resume fresh_world.
Proof.
  split; [reflexivity |]. split; [reflexivity |]. split; [reflexivity |].
  intros H.
  apply (f_equal (fun w => textContent (micStatus (elements w)))) in H.
  discriminate H.
Qed.

(** C9, amended: [disconnect()] never throws and is idempotent from any
    state: a second call in a row changes nothing.  When the state is Idle
    it touches no channel, stream or processor and leaves the [state]
    object, the console and the alerts as they are; its only effect is to
    write the disconnected presentation to the page, which changes nothing
    if the page already shows it. *)
Theorem disconnect_idempotent_rerenders_when_idle :
  (forall w : World, disconnect (disconnect w) = disconnect w) /\
  (forall w : World,
      is_idle w = true -> disconnect w = on_elements disconnect_ui w) /\
  (forall w : World,
      is_idle w = true ->
      elements w = disconnect_ui (elements w) ->
      disconnect w = w).
Proof.
  assert (Hidle : forall w, is_idle w = true ->
                            disconnect w = on_elements disconnect_ui w).
  { intros w H. unfold is_idle in H. unfold disconnect.
    destruct (ws (state w)) eqn:E1; [discriminate |].
    destruct (mediaStream (state w)) eqn:E2; [discriminate |].
    destruct (audioProcessor (state w)) eqn:E3; [discriminate |].
    cbv zeta. rewrite ?E1, ?E2, ?E3.
    apply negb_true_iff in H.
    destruct w as [[? c ? ? ? ? ? ? ?] ? ? ? ? ? ? ? ? ?].
    cbn in H. subst c. reflexivity. }
  split; [apply disconnect_idempotent |]. split; [exact Hidle |].
  intros w H He. rewrite (Hidle w H).
  destruct w as [? e ? ? ? ? ? ? ? ?]. cbn in He |- *.
  unfold on_elements. cbn. rewrite <- He. reflexivity.
Qed.

Lemma disconnect_idempotent_rerenders_when_idle_witness :
  is_idle fresh_world = true /\
  disconnect fresh_world = on_elements disconnect_ui fresh_world /\
  disconnect fresh_world = fresh_world.
Proof.
  split; [reflexivity |]. split.
  - apply (proj1 (proj2 disconnect_idempotent_rerenders_when_idle)).
    reflexivity.
  - apply (proj2 (proj2 disconnect_idempotent_rerenders_when_idle));
      reflexivity.
Defined.

(** ** Further properties of the code *)

(** *** The converted block *)

Lemma convert_sample_in_range x : -32768 <= convert_sample x <= 32767.
Proof.
  destruct x as [| [|] | q].
  1-3: vm_compute; split; discriminate.
  rewrite convert_finite. apply truncate_scaled_range.
Qed.

Lemma convert_sample_monotone s1 s2 :
  (s1 <= s2)%Q -> convert_sample (Finite s1) <= convert_sample (Finite s2).
Proof.
  intros H. rewrite !convert_finite.
  apply truncate_monotone, spec_scaled_monotone, H.
Qed.

Lemma scaled_sample_finite q :
  scaled_sample (Finite q) = Finite (spec_scaled q).
Proof.
  unfold scaled_sample. rewrite clamp_finite. unfold spec_scaled.
  cbn [js_lt num]. unfold Qltb.
  change (inject_Z 0) with 0%Q.
  destruct (Qle_bool 0 (spec_clamp q)); reflexivity.
Qed.

(** X1: the store into the [Int16Array] never wraps around.  For every
    sample of every block, the number the loop assigns to [pcm16[i]] is
    never infinite, is NaN only for a NaN sample (stored as 0), and is
    otherwise a finite number between -32768 and 32767, so that the
    sample stored is its integer part: the reduction modulo [2^16] of
    the store never applies, whatever the input (infinities and
    out-of-range samples included).  The converted block has the length
    of the input block and holds at each index the conversion of the
    input sample at that index. *)
Theorem pcm16_store_never_wraps :
  forall inputData : list number,
    length (pcm16_of inputData) = length inputData /\
    (forall i x, inputData !! i = Some x ->
       pcm16_of inputData !! i = Some (convert_sample x) /\
       convert_sample x = ToInt16 (scaled_sample x) /\
       match scaled_sample x with
       | NaN => x = NaN /\ convert_sample x = 0
       | Infinity _ => False
       | Finite q =>
           (-32768 <= q <= 32767)%Q /\ convert_sample x = truncate q
       end).
Proof.
  intros inputData. unfold pcm16_of. split; [apply length_map |].
  intros i x Hx.
  change (map convert_sample inputData) with (convert_sample <$> inputData).
  rewrite list_lookup_fmap, Hx.
  split; [reflexivity |]. split; [reflexivity |].
  destruct x as [| [|] | q].
  - split; reflexivity.
  - vm_compute. split; [split; discriminate | reflexivity].
  - vm_compute. split; [split; discriminate | reflexivity].
  - rewrite scaled_sample_finite.
    split; [apply spec_scaled_bounds | apply convert_finite].
Qed.

Lemma pcm16_store_never_wraps_witness :
  pcm16_of [ Finite (1 # 2); NaN; num 2 ] !! 2%nat =
    Some (convert_sample (num 2)) /\
  convert_sample (num 2) = ToInt16 (scaled_sample (num 2)) /\
  scaled_sample (num 2) = num 32767.
Proof.
  destruct (pcm16_store_never_wraps [ Finite (1 # 2); NaN; num 2 ])
    as [_ Hr].
  destruct (Hr 2%nat (num 2) eq_refl) as (H1 & H2 & _).
  split; [exact H1 |]. split; [exact H2 | reflexivity].
Defined.

Lemma spec_scaled_below_one q : (q < 1)%Q -> (spec_scaled q < 32767)%Q.
Proof.
  intros H. unfold spec_scaled, spec_clamp, Qmax, Qmin.
  case_Qle 1%Q q; [lra |].
  case_Qle (-1)%Q q.
  - case_Qle 0%Q q; lra.
  - case_Qle 0%Q (-1)%Q; lra.
Qed.

Lemma spec_scaled_above_minus_one q : (-1 < q)%Q -> (-32768 < spec_scaled q)%Q.
Proof.
  intros H. unfold spec_scaled, spec_clamp, Qmax, Qmin.
  case_Qle 1%Q q.
  - case_Qle (-1)%Q 1%Q; [| lra]. case_Qle 0%Q 1%Q; lra.
  - case_Qle (-1)%Q q; [| lra].
    case_Qle 0%Q q; lra.
Qed.

Lemma truncate_below x z :
  (x < inject_Z z)%Q -> 0 <= z -> truncate x < z \/ z = 0.
Proof.
  intros Hx Hz. unfold truncate. destruct (Qis_neg x) eqn:Hn.
  - apply Qis_neg_true in Hn.
    assert (Hc : Qceiling x <= 0).
    { rewrite <- (Qceiling_Z 0). apply Qceiling_resp_le.
      change (inject_Z 0) with 0%Q. lra. }
    lia.
  - left. pose proof (Qfloor_le x) as Hf.
    assert (H : (inject_Z (Qfloor x) < inject_Z z)%Q) by lra.
    rewrite <- Zlt_Qlt in H. exact H.
Qed.

Lemma truncate_above x z :
  (inject_Z z < x)%Q -> z <= 0 -> z < truncate x \/ z = 0.
Proof.
  intros Hx Hz. unfold truncate. destruct (Qis_neg x) eqn:Hn.
  - left. pose proof (Qle_ceiling x) as Hc.
    assert (H : (inject_Z z < inject_Z (Qceiling x))%Q) by lra.
    rewrite <- Zlt_Qlt in H. exact H.
  - apply Qis_neg_false in Hn.
    assert (Hf : 0 <= Qfloor x).
    { rewrite <- (Qfloor_Z 0). apply Qfloor_resp_le.
      change (inject_Z 0) with 0%Q. lra. }
    lia.
Qed.

(** X2: the converter reaches full scale only when it clips: the output is
    32767 exactly for samples of 1 and above and -32768 exactly for samples
    of -1 and below; and it keeps the sign of the sample. *)
Theorem convert_sample_full_scale_only_when_clipping :
  forall q : Q,
    (convert_sample (Finite q) = 32767 <-> (1 <= q)%Q) /\
    (convert_sample (Finite q) = -32768 <-> (q <= -1)%Q) /\
    ((0 <= q)%Q -> 0 <= convert_sample (Finite q)) /\
    ((q <= 0)%Q -> convert_sample (Finite q) <= 0).
Proof.
  intros q. pose proof (convert_sample_in_range (Finite q)) as Hr.
  repeat split.
  - intros H. destruct (Qlt_le_dec q 1) as [Hlt | Hge]; [| exact Hge].
    exfalso. rewrite convert_finite in H.
    destruct (truncate_below (spec_scaled q) 32767) as [H' | H'];
      [apply spec_scaled_below_one, Hlt | lia | lia | discriminate].
  - intros H. pose proof (convert_sample_monotone 1 q H) as Hm.
    change (convert_sample (Finite 1)) with 32767 in Hm. lia.
  - intros H. destruct (Qlt_le_dec (-1) q) as [Hlt | Hge]; [| exact Hge].
    exfalso. rewrite convert_finite in H.
    destruct (truncate_above (spec_scaled q) (-32768)) as [H' | H'];
      [apply spec_scaled_above_minus_one, Hlt | lia | lia | discriminate].
  - intros H. pose proof (convert_sample_monotone q (-1) H) as Hm.
    change (convert_sample (Finite (-1))) with (-32768) in Hm. lia.
  - intros H. pose proof (convert_sample_monotone 0 q H) as Hm.
    change (convert_sample (Finite 0)) with 0 in Hm. exact Hm.
  - intros H. pose proof (convert_sample_monotone q 0 H) as Hm.
    change (convert_sample (Finite 0)) with 0 in Hm. exact Hm.
Qed.

Lemma convert_sample_full_scale_only_when_clipping_witness :
  convert_sample (Finite (3 # 2)) = 32767 /\
  convert_sample (Finite (-5 # 4)) = -32768 /\
  0 <= convert_sample (Finite (1 # 3)) /\
  convert_sample (Finite (-1 # 3)) <= 0.
Proof.
  split; [| split; [| split]].
  - apply (proj1 (convert_sample_full_scale_only_when_clipping (3 # 2))).
    unfold Qle; simpl; lia.
  - apply (proj1 (proj2 (convert_sample_full_scale_only_when_clipping (-5 # 4)))).
    unfold Qle; simpl; lia.
  - apply (proj1 (proj2 (proj2
             (convert_sample_full_scale_only_when_clipping (1 # 3))))).
    unfold Qle; simpl; lia.
  - apply (proj2 (proj2 (proj2
             (convert_sample_full_scale_only_when_clipping (-1 # 3))))).
    unfold Qle; simpl; lia.
Defined.

(** *** Sending while streaming *)

Lemma channel_open_spec w :
  channel_open w = true <->
  exists i s,
    ws (state w) = Some i /\ sockets w !! i = Some s /\ readyState s = OPEN.
Proof.
  unfold channel_open. split.
  - destruct (ws (state w)) as [i|]; [| discriminate].
    destruct (sockets w !! i) as [s|] eqn:Es; [| discriminate].
    destruct (readyState s) eqn:E; try discriminate.
    intros _. exists i, s. repeat split; assumption.
  - intros (i & s & -> & -> & ->). reflexivity.
Qed.

(** One block, while the flag is set and the channel is open. *)
Lemma onaudioprocess_sends p inputData w i s :
  isConnected (state w) = true ->
  ws (state w) = Some i ->
  sockets w !! i = Some s ->
  readyState s = OPEN ->
  state (onaudioprocess p inputData w) = state w /\
  sockets (onaudioprocess p inputData w) =
    alter (ws_send (pcm16_of inputData)) i (sockets w) /\
  processors (onaudioprocess p inputData w) =
    alter (set_audioChunkCount
             (N.succ (default 0%N (audioChunkCount <$> processors w !! p)))) p
      (processors w).
Proof.
  intros Hc Hw Hs Hr. unfold onaudioprocess. rewrite Hc. cbn [negb].
  assert (Ho : channel_open w = true)
    by (apply channel_open_spec; exists i, s; repeat split; assumption).
  rewrite Ho, Hw. cbn [processors on_sockets].
  destruct (N.eqb _ 1); [repeat split; reflexivity |].
  destruct (N.eqb _ 0); repeat split; reflexivity.
Qed.

Lemma run_cons {Payload : Type} (JSON_parse : Payload -> option JSValue)
  (e : Event Payload) es w :
  run JSON_parse (e :: es) w = run JSON_parse es (step JSON_parse e w).
Proof. reflexivity. Qed.

(** X3: while the connected flag is set and the channel of [state.ws] is
    open, every block delivered to a processor is sent: after [N] blocks
    the channel has been handed exactly the [N] converted blocks, in
    capture order, after what it had been handed before; no other channel
    is touched, the processor's chunk count has grown by [N], and the
    [state] object is unchanged. *)
Theorem streaming_sends_every_block_in_order :
  forall (Payload : Type) (JSON_parse : Payload -> option JSValue)
         (p i : nat) (s : WebSocket) (n : ScriptProcessor)
         (blocks : list (list number)) (w : World),
    isConnected (state w) = true ->
    ws (state w) = Some i ->
    sockets w !! i = Some s ->
    readyState s = OPEN ->
    processors w !! p = Some n ->
    sent <$> sockets (run JSON_parse (AudioProcess p <$> blocks) w) !! i =
      Some (sent s ++ (pcm16_of <$> blocks)) /\
    (forall j, j <> i ->
       sockets (run JSON_parse (AudioProcess p <$> blocks) w) !! j =
       sockets w !! j) /\
    audioChunkCount
      <$> processors (run JSON_parse (AudioProcess p <$> blocks) w) !! p =
      Some (audioChunkCount n + N.of_nat (length blocks))%N /\
    state (run JSON_parse (AudioProcess p <$> blocks) w) = state w.
Proof.
  intros Payload JSON_parse p i s n blocks. revert s n.
  induction blocks as [| b blocks IH]; intros s n w Hc Hw Hs Hr Hp.
  - cbn. rewrite Hs, Hp. cbn. rewrite app_nil_r, N.add_0_r.
    repeat split; reflexivity.
  - rewrite fmap_cons, run_cons.
    assert (Hstep : step JSON_parse (AudioProcess p b) w = onaudioprocess p b w)
      by (unfold step; rewrite Hp; reflexivity).
    rewrite Hstep.
    destruct (onaudioprocess_sends p b w i s Hc Hw Hs Hr) as (H1 & H2 & H3).
    set (w1 := onaudioprocess p b w) in *.
    assert (Hs1 : sockets w1 !! i = Some (ws_send (pcm16_of b) s)).
    { rewrite H2, list_lookup_alter_eq, Hs. reflexivity. }
    assert (Hp1 : processors w1 !! p =
                  Some (set_audioChunkCount (N.succ (audioChunkCount n)) n)).
    { rewrite H3, list_lookup_alter_eq, Hp. reflexivity. }
    assert (Hc1 : isConnected (state w1) = true) by (rewrite H1; exact Hc).
    assert (Hw1 : ws (state w1) = Some i) by (rewrite H1; exact Hw).
    destruct (IH _ _ w1 Hc1 Hw1 Hs1 Hr Hp1) as (I1 & I2 & I3 & I4).
    repeat split.
    + rewrite I1. cbn. rewrite <- app_assoc. reflexivity.
    + intros j Hj. rewrite (I2 j Hj), H2.
      apply list_lookup_alter_ne. congruence.
    + rewrite I3. cbn [set_audioChunkCount audioChunkCount length].
      f_equal. lia.
    + rewrite I4. exact H1.
Qed.

Lemma streaming_sends_every_block_in_order_witness :
  sent
    <$> sockets
          (run decoded
             (AudioProcess 0 <$> [ [ Finite (1 # 2) ]; [ NaN; num (-3) ] ])
             (run decoded session_start fresh_world)) !! 0%nat =
    Some [ [ 16383 ]; [ 0; -32768 ] ].
Proof.
  edestruct (streaming_sends_every_block_in_order (option JSValue) decoded
               0 0) with
    (blocks := [ [ Finite (1 # 2) ]; [ NaN; num (-3) ] ])
    (w := run decoded session_start fresh_world) as (H & _);
    [ vm_compute; reflexivity .. | ].
  rewrite H. vm_compute. reflexivity.
Defined.

(** *** Teardown *)

Lemma disconnect_heaps w :
  sockets (disconnect w) =
    match ws (state w) with
    | Some i => alter (ws_close 1000 "User disconnected") i (sockets w)
    | None => sockets w
    end /\
  streams (disconnect w) =
    match mediaStream (state w) with
    | Some m => alter (fun _ => {| tracks_stopped := true |}) m (streams w)
    | None => streams w
    end /\
  processors (disconnect w) =
    match audioProcessor (state w) with
    | Some p =>
        alter (fun n => {| source_stream := source_stream n;
                           output_connected := false;
                           audioChunkCount := audioChunkCount n |}) p
          (processors w)
    | None => processors w
    end.
Proof. unfold disconnect. crush; repeat split; reflexivity. Qed.

Lemma disconnect_state w :
  state (disconnect w) =
  set_isConnected false
    (set_mediaStream None (set_audioProcessor None (set_ws None (state w)))).
Proof.
  unfold disconnect.
  destruct w as [[a b c d e f g h i] ? ? ? ? ? ? ? ? ?].
  destruct a, d, e; reflexivity.
Qed.

Lemma disconnect_elements w :
  elements (disconnect w) = disconnect_ui (elements w).
Proof. unfold disconnect. crush. Qed.

Lemma ws_close_states code reason s :
  readyState (ws_close code reason s) <> OPEN /\
  readyState (ws_close code reason s) <> CONNECTING /\
  sent (ws_close code reason s) = sent s /\
  (readyState s = OPEN \/ readyState s = CONNECTING ->
   readyState (ws_close code reason s) = CLOSING /\
   close_args (ws_close code reason s) = Some (code, reason)).
Proof.
  unfold ws_close. destruct (readyState s) eqn:E; cbn; rewrite ?E;
    (split; [discriminate |]); (split; [discriminate |]);
    (split; [reflexivity |]);
    intros [H | H]; first [discriminate H | split; reflexivity].
Qed.

(** X4: [disconnect()] ends in Idle from any state and releases exactly
    the handles the [state] object references: that channel is no longer
    connecting or open (a live one is closing with code 1000 and reason
    ['User disconnected']) and keeps what it had sent, that stream's
    tracks are stopped, that processor's output is disconnected.  Every
    other channel, stream and processor is left as it is, and so are the
    audio context (never closed), the counters and the transcript (never
    cleared). *)
Theorem disconnect_releases_referenced_handles :
  forall w : World,
    is_idle (disconnect w) = true /\
    (forall i s, ws (state w) = Some i -> sockets w !! i = Some s ->
       exists s', sockets (disconnect w) !! i = Some s' /\
                  readyState s' <> OPEN /\ readyState s' <> CONNECTING /\
                  sent s' = sent s /\
                  (readyState s = OPEN \/ readyState s = CONNECTING ->
                   readyState s' = CLOSING /\
                   close_args s' = Some (1000, "User disconnected"))) /\
    (forall j, ws (state w) <> Some j ->
       sockets (disconnect w) !! j = sockets w !! j) /\
    (forall m x, mediaStream (state w) = Some m -> streams w !! m = Some x ->
       streams (disconnect w) !! m = Some {| tracks_stopped := true |}) /\
    (forall j, mediaStream (state w) <> Some j ->
       streams (disconnect w) !! j = streams w !! j) /\
    (forall p n, audioProcessor (state w) = Some p ->
       processors w !! p = Some n ->
       processors (disconnect w) !! p =
         Some {| source_stream := source_stream n; output_connected := false;
                 audioChunkCount := audioChunkCount n |}) /\
    (forall j, audioProcessor (state w) <> Some j ->
       processors (disconnect w) !! j = processors w !! j) /\
    audioContext (state (disconnect w)) = audioContext (state w) /\
    counters (disconnect w) = counters w /\
    transcript (disconnect w) = transcript w.
Proof.
  intros w. destruct (disconnect_heaps w) as (Hs & Hm & Hp).
  pose proof (disconnect_state w) as Hst.
  split; [unfold is_idle; rewrite Hst; reflexivity |].
  split.
  { intros i s Hw Hl. rewrite Hs, Hw, list_lookup_alter_eq, Hl. cbn.
    eexists. split; [reflexivity |]. apply ws_close_states. }
  split.
  { intros j Hj. rewrite Hs.
    destruct (ws (state w)) as [i|]; [| reflexivity].
    apply list_lookup_alter_ne. congruence. }
  split.
  { intros m x Hw Hl. rewrite Hm, Hw, list_lookup_alter_eq, Hl. reflexivity. }
  split.
  { intros j Hj. rewrite Hm.
    destruct (mediaStream (state w)) as [i|]; [| reflexivity].
    apply list_lookup_alter_ne. congruence. }
  split.
  { intros p n Hw Hl. rewrite Hp, Hw, list_lookup_alter_eq, Hl. reflexivity. }
  split.
  { intros j Hj. rewrite Hp.
    destruct (audioProcessor (state w)) as [i|]; [| reflexivity].
    apply list_lookup_alter_ne. congruence. }
  split; [rewrite Hst; reflexivity |].
  split; [unfold counters; rewrite Hst; reflexivity |].
  unfold transcript. rewrite disconnect_elements. reflexivity.
Qed.

Lemma disconnect_releases_referenced_handles_witness :
  is_idle (disconnect (run decoded hello_scenario fresh_world)) = true /\
  (exists s',
      sockets (disconnect (run decoded hello_scenario fresh_world)) !! 0%nat
        = Some s' /\
      readyState s' = CLOSING /\
      close_args s' = Some (1000, "User disconnected")) /\
  streams (disconnect (run decoded hello_scenario fresh_world)) !! 0%nat =
    Some {| tracks_stopped := true |} /\
  output_connected
    <$> processors (disconnect (run decoded hello_scenario fresh_world)) !! 0%nat
    = Some false.
Proof.
  destruct (disconnect_releases_referenced_handles
              (run decoded hello_scenario fresh_world))
    as (Hidle & Hsock & _ & Hstream & _ & Hproc & _).
  split; [exact Hidle |]. split; [| split].
  - edestruct (Hsock 0%nat) as (s' & Hl & _ & _ & _ & Hc);
      [vm_compute; reflexivity .. |].
    exists s'. split; [exact Hl |]. apply Hc. left. vm_compute. reflexivity.
  - eapply (Hstream 0%nat); vm_compute; reflexivity.
  - erewrite (Hproc 0%nat); [reflexivity | vm_compute; reflexivity ..].
Defined.

(** X5: when the microphone request is rejected, [onConnected] tears
    everything down: the state is Idle, the user gets exactly one alert
    about microphone access, one error line is logged, the page shows the
    disconnected presentation, and the open channel the state referenced
    is closing with code 1000. *)
Theorem microphone_denied_tears_down :
  forall w : World,
    is_idle (onConnected_denied w) = true /\
    alerts (onConnected_denied w) =
      alerts w ++
      [ "Failed to access microphone. Please allow microphone access and try again." ] /\
    console (onConnected_denied w) =
      console w ++ [ (Error, "Failed to initialize audio:") ] /\
    elements (onConnected_denied w) = disconnect_ui (elements w) /\
    (forall i s, ws (state w) = Some i -> sockets w !! i = Some s ->
       readyState s = OPEN ->
       exists s', sockets (onConnected_denied w) !! i = Some s' /\
                  readyState s' = CLOSING /\
                  close_args s' = Some (1000, "User disconnected")).
Proof.
  intros w. unfold onConnected_denied, onConnected_catch.
  set (w0 := showError _ (on_state (set_isConnected false) (console_error _ w))).
  destruct (disconnect_heaps w0) as (Hs & _ & _).
  split; [unfold is_idle; rewrite disconnect_state; reflexivity |].
  split; [unfold disconnect; subst w0; crush |].
  split; [unfold disconnect; subst w0; crush |].
  split; [rewrite disconnect_elements; reflexivity |].
  intros i s Hw Hl Hr. rewrite Hs.
  change (ws (state w0)) with (ws (state w)).
  change (sockets w0) with (sockets w).
  rewrite Hw, list_lookup_alter_eq, Hl. cbn. eexists. split; [reflexivity |].
  apply ws_close_states. left. exact Hr.
Qed.

Lemma microphone_denied_tears_down_witness :
  exists s',
    sockets
      (onConnected_denied
         (run decoded
            [ ClickConnect false; SocketOpen 0 (ContextCreated running) ]
            fresh_world)) !! 0%nat = Some s' /\
    readyState s' = CLOSING /\
    close_args s' = Some (1000, "User disconnected").
Proof.
  eapply (proj2 (proj2 (proj2 (proj2
           (microphone_denied_tears_down
              (run decoded
                 [ ClickConnect false; SocketOpen 0 (ContextCreated running) ]
                 fresh_world)))))
           0%nat); vm_compute; reflexivity.
Defined.

(** *** The connection lifecycle *)

Lemma lookup_last_index {A} (l : list A) x : (l ++ [x]) !! length l = Some x.
Proof. apply list_lookup_middle. reflexivity. Qed.

Lemma alter_last_index {A} (f : A -> A) (l : list A) x :
  alter f (length l) (l ++ [x]) = l ++ [f x].
Proof. induction l as [| a l IH]; cbn; [reflexivity | f_equal; exact IH]. Qed.

Section Lifecycle.

Context {Payload : Type} (JSON_parse : Payload -> option JSValue).

Lemma close_event_handled i s w :
  sockets w !! i = Some s ->
  readyState s <> CLOSED ->
  step JSON_parse (SocketClose i) w =
  handleWebSocketClose (on_sockets (alter (set_readyState CLOSED) i) w).
Proof.
  intros Hl Hr. unfold step, socket_state. rewrite Hl. cbn.
  destruct (readyState s); congruence.
Qed.

(** X6: a close event on a channel (whoever closed it) followed by the
    two-second timer, with nothing in between, brings the page back to
    the pre-connect presentation (overlay shown, transcript and
    disconnect button hidden, connect button enabled, status
    'Disconnected', microphone 'Inactive') and clears the connected
    flag, but releases nothing: the state still references the same
    channel, stream and processor, and no track is stopped and no
    processor disconnected. *)
Theorem remote_close_resets_page_keeps_handles :
  forall (i : nat) (s : WebSocket) (w : World),
    sockets w !! i = Some s ->
    readyState s <> CLOSED ->
    isConnected (state (run JSON_parse [ SocketClose i; TimerFired ] w)) = false /\
    ws (state (run JSON_parse [ SocketClose i; TimerFired ] w)) = ws (state w) /\
    mediaStream (state (run JSON_parse [ SocketClose i; TimerFired ] w)) =
      mediaStream (state w) /\
    audioProcessor (state (run JSON_parse [ SocketClose i; TimerFired ] w)) =
      audioProcessor (state w) /\
    streams (run JSON_parse [ SocketClose i; TimerFired ] w) = streams w /\
    processors (run JSON_parse [ SocketClose i; TimerFired ] w) = processors w /\
    timers (run JSON_parse [ SocketClose i; TimerFired ] w) = timers w /\
    readyState <$> sockets (run JSON_parse [ SocketClose i; TimerFired ] w) !! i =
      Some CLOSED /\
    elements (run JSON_parse [ SocketClose i; TimerFired ] w) =
      resetConnectButton
        (set_connectOverlay_hidden false
           (set_disconnectContainer_hidden true
              (set_transcriptContainer_hidden true
                 (updateMicrophoneStatus (JBool false)
                    (updateConnectionStatus false "Disconnected"
                       (elements w)))))).
Proof.
  intros i s w Hl Hr. unfold run. cbn [fold_left].
  rewrite (close_event_handled i s w Hl Hr).
  unfold step, handleWebSocketClose, reconnect_timeout. cbn.
  rewrite list_lookup_alter_eq, Hl. repeat split; reflexivity.
Qed.

(** X7: when a channel opens while the state still references an audio
    context and a stream (left by a session the remote end closed),
    [onConnected] asks for no microphone and builds no pipeline: the
    stream and processor handles and both heaps are unchanged, nothing is
    alerted, the microphone status is not rewritten, and the page goes
    straight to 'Connected' with the transcript shown. *)
Theorem open_with_live_stream_reuses_pipeline :
  forall (r : ContextResult) (c : AudioContext) (m : nat) (w : World),
    audioContext (state w) = Some c ->
    mediaStream (state w) = Some m ->
    isConnected (state (handleWebSocketOpen r w)) = true /\
    mediaStream (state (handleWebSocketOpen r w)) = Some m /\
    audioProcessor (state (handleWebSocketOpen r w)) = audioProcessor (state w) /\
    audioContext (state (handleWebSocketOpen r w)) = Some c /\
    streams (handleWebSocketOpen r w) = streams w /\
    processors (handleWebSocketOpen r w) = processors w /\
    alerts (handleWebSocketOpen r w) = alerts w /\
    micStatus (elements (handleWebSocketOpen r w)) = micStatus (elements w) /\
    connectionStatus (elements (handleWebSocketOpen r w)) =
      connectionStatus (updateConnectionStatus true "Connected" (elements w)) /\
    connectOverlay_hidden (elements (handleWebSocketOpen r w)) = true /\
    transcriptContainer_hidden (elements (handleWebSocketOpen r w)) = false /\
    disconnectContainer_hidden (elements (handleWebSocketOpen r w)) = false.
Proof.
  intros r c m w Hc Hm.
  unfold handleWebSocketOpen, onConnected, initializeAudioContext. cbn.
  rewrite Hc. unfold startMicrophone. cbn. rewrite Hm. cbn.
  repeat split; first [reflexivity | assumption].
Qed.

Lemma connect_opens_channel w :
  isConnected (state w) = false ->
  sockets (connect false w) =
    sockets w ++
    [ {| url_protocol :=
           if String.eqb (location_protocol w) "https:" then "wss:" else "ws:";
         url_host := location_host w;
         url_params :=
           [ ("model", value (modelSelect (elements w)));
             ("language", value (languageInput (elements w)));
             ("encoding", "linear16");
             ("sample_rate", "16000");
             ("channels", "1") ];
         binaryType := "arraybuffer";
         readyState := CONNECTING; sent := []; close_args := None |} ] /\
  state (connect false w) =
    set_ws (Some (length (sockets w)))
      (set_config_language (value (languageInput (elements w)))
         (set_config_model (value (modelSelect (elements w))) (state w))) /\
  streams (connect false w) = streams w /\
  processors (connect false w) = processors w /\
  btn_disabled (connectBtn (elements (connect false w))) = true.
Proof. intros H. unfold connect. rewrite H. repeat split; reflexivity. Qed.

Lemma open_starts_acquiring i s w :
  sockets w !! i = Some s ->
  readyState s = CONNECTING ->
  mediaStream (state w) = None ->
  let w' := step JSON_parse (SocketOpen i (ContextCreated running)) w in
  sockets w' = alter (set_readyState OPEN) i (sockets w) /\
  isConnected (state w') = true /\
  ws (state w') = ws (state w) /\
  mediaStream (state w') = None /\
  audioProcessor (state w') = audioProcessor (state w) /\
  (exists c, audioContext (state w') = Some c) /\
  streams w' = streams w /\
  processors w' = processors w /\
  counters w' = counters w /\
  micStatus (elements w') =
    {| textContent := JStr "Requesting..."; color := "" |}.
Proof.
  intros Hl Hr Hm w'. subst w'. unfold step, socket_state. rewrite Hl. cbn.
  rewrite Hr. unfold handleWebSocketOpen, onConnected, initializeAudioContext.
  cbn. destruct (audioContext (state w)) as [c|] eqn:Hc;
    unfold startMicrophone; cbn; rewrite Hm; cbn;
    repeat split; try reflexivity; try assumption; eexists;
    first [exact Hc | reflexivity].
Qed.

Lemma granted_builds_pipeline r c w :
  audioContext (state w) = Some c ->
  let w' := step JSON_parse (MicrophoneGranted r) w in
  sockets w' = sockets w /\
  isConnected (state w') = isConnected (state w) /\
  ws (state w') = ws (state w) /\
  mediaStream (state w') = Some (length (streams w)) /\
  audioProcessor (state w') = Some (length (processors w)) /\
  streams w' = streams w ++ [ {| tracks_stopped := false |} ] /\
  processors w' =
    processors w ++
    [ {| source_stream := length (streams w); output_connected := true;
         audioChunkCount := 0 |} ] /\
  connectionStatus (elements w') =
    connectionStatus (updateConnectionStatus true "Connected" (elements w)) /\
  micStatus (elements w') =
    micStatus (updateMicrophoneStatus (JBool true) (elements w)) /\
  connectOverlay_hidden (elements w') = true /\
  counters w' = counters w.
Proof.
  intros Hc w'. subst w'.
  unfold step, onConnected_granted, startMicrophone_granted. cbn. rewrite Hc.
  unfold startMicrophone_pipeline. cbn. rewrite Hc. cbn.
  rewrite alter_last_index. repeat split; reflexivity.
Qed.

(** X8: the success path.  From a state with the connect button enabled,
    the flag unset and no stream referenced, a click on Connect, the
    open event of the channel just created and the microphone grant lead
    to Streaming: the state references the new channel, which is open, a
    new stream with live tracks and a new processor wired to it; the page
    shows 'Connected', microphone 'Active' and no overlay; the counters
    are those from before. *)
Theorem connect_open_grant_reaches_streaming :
  forall w : World,
    btn_disabled (connectBtn (elements w)) = false ->
    isConnected (state w) = false ->
    mediaStream (state w) = None ->
    let w' :=
      run JSON_parse
        [ ClickConnect false;
          SocketOpen (length (sockets w)) (ContextCreated running);
          MicrophoneGranted (ContextCreated running) ] w in
    is_streaming w' = true /\
    channel_open w' = true /\
    ws (state w') = Some (length (sockets w)) /\
    mediaStream (state w') = Some (length (streams w)) /\
    audioProcessor (state w') = Some (length (processors w)) /\
    streams w' = streams w ++ [ {| tracks_stopped := false |} ] /\
    processors w' =
      processors w ++
      [ {| source_stream := length (streams w); output_connected := true;
           audioChunkCount := 0 |} ] /\
    connectionStatus (elements w') =
      connectionStatus (updateConnectionStatus true "Connected" (elements w)) /\
    micStatus (elements w') =
      {| textContent := JStr "Active"; color := "var(--dg-primary, #13ef95)" |} /\
    connectOverlay_hidden (elements w') = true /\
    counters w' = counters w.
Proof.
  intros w Hb Hc Hm w'. subst w'. unfold run. cbn [fold_left].
  set (w1 := step JSON_parse (ClickConnect false) w).
  assert (Hw1 : w1 = connect false w)
    by (subst w1; unfold step; rewrite Hb; reflexivity).
  destruct (connect_opens_channel w Hc) as (S1 & St1 & Sm1 & Sp1 & _).
  rewrite <- Hw1 in S1, St1, Sm1, Sp1.
  set (sock := {| url_protocol := _ |}) in S1.
  assert (Hl1 : sockets w1 !! length (sockets w) = Some sock)
    by (rewrite S1; apply lookup_last_index).
  assert (Hm1 : mediaStream (state w1) = None) by (rewrite St1; exact Hm).
  destruct (open_starts_acquiring _ sock w1 Hl1 eq_refl Hm1)
    as (S2 & C2 & W2 & M2 & P2 & (c & A2) & Sm2 & Sp2 & K2 & _).
  set (w2 := step JSON_parse
               (SocketOpen (length (sockets w)) (ContextCreated running)) w1) in *.
  destruct (granted_builds_pipeline (ContextCreated running) c w2 A2)
    as (S3 & C3 & W3 & M3 & P3 & Sm3 & Sp3 & E3 & E4 & E5 & K3).
  set (w3 := step JSON_parse (MicrophoneGranted (ContextCreated running)) w2) in *.
  assert (Hws : ws (state w3) = Some (length (sockets w)))
    by (rewrite W3, W2, St1; reflexivity).
  split; [unfold is_streaming; rewrite C3, C2, P3; reflexivity |].
  split.
  { unfold channel_open.
    rewrite Hws, S3, S2, S1, alter_last_index, lookup_last_index.
    reflexivity. }
  split; [exact Hws |].
  split; [rewrite M3, Sm2, Sm1; reflexivity |].
  split; [rewrite P3, Sp2, Sp1; reflexivity |].
  split; [rewrite Sm3, Sm2, Sm1; reflexivity |].
  split; [rewrite Sp3, Sp2, Sp1, Sm2, Sm1; reflexivity |].
  split; [rewrite E3; reflexivity |].
  split; [rewrite E4; reflexivity |].
  split; [exact E5 |].
  rewrite K3, K2. unfold counters. rewrite St1. reflexivity.
Qed.

End Lifecycle.

Lemma remote_close_resets_page_keeps_handles_witness :
  isConnected
    (state (run decoded [ SocketClose 0; TimerFired ]
              (run decoded session_start fresh_world))) = false /\
  mediaStream
    (state (run decoded [ SocketClose 0; TimerFired ]
              (run decoded session_start fresh_world))) = Some 0%nat /\
  streams (run decoded [ SocketClose 0; TimerFired ]
             (run decoded session_start fresh_world)) =
    [ {| tracks_stopped := false |} ].
Proof.
  edestruct (remote_close_resets_page_keeps_handles decoded 0%nat) with
    (w := run decoded session_start fresh_world)
    as (H1 & _ & H3 & _ & H5 & _);
    [ vm_compute; reflexivity | vm_compute; discriminate | ].
  split; [exact H1 |].
  split; [rewrite H3 | rewrite H5]; vm_compute; reflexivity.
Defined.

Lemma open_with_live_stream_reuses_pipeline_witness :
  streams
    (handleWebSocketOpen (ContextCreated running)
       (run decoded
          (session_start ++ [ SocketClose 0; TimerFired; ClickConnect false ])
          fresh_world)) =
    [ {| tracks_stopped := false |} ] /\
  micStatus
    (elements
       (handleWebSocketOpen (ContextCreated running)
          (run decoded
             (session_start ++ [ SocketClose 0; TimerFired; ClickConnect false ])
             fresh_world))) =
    {| textContent := JStr "Inactive"; color := "" |}.
Proof.
  edestruct (open_with_live_stream_reuses_pipeline (ContextCreated running))
    with (w := run decoded
                 (session_start ++ [ SocketClose 0; TimerFired; ClickConnect false ])
                 fresh_world)
    as (_ & _ & _ & _ & H5 & _ & _ & H8 & _);
    [ vm_compute; reflexivity .. | ].
  split; [rewrite H5 | rewrite H8]; vm_compute; reflexivity.
Defined.

Lemma connect_open_grant_reaches_streaming_witness :
  is_streaming
    (run decoded
       [ ClickConnect false;
         SocketOpen
           (length (sockets (disconnect (run decoded hello_scenario fresh_world))))
           (ContextCreated running);
         MicrophoneGranted (ContextCreated running) ]
       (disconnect (run decoded hello_scenario fresh_world))) = true /\
  length (sockets (disconnect (run decoded hello_scenario fresh_world))) = 1%nat.
Proof.
  pose proof (connect_open_grant_reaches_streaming decoded
                (disconnect (run decoded hello_scenario fresh_world))) as H.
  cbv zeta in H.
  destruct H as (H1 & _); [ vm_compute; reflexivity .. | ].
  split; [exact H1 | vm_compute; reflexivity].
Defined.

(** *** Invariants of the page over every sequence of events *)

Section Invariants.

Context {Payload : Type} (JSON_parse : Payload -> option JSValue).

(** The five outcomes of the message handler. *)
Lemma handle_outcomes event_data now w :
  let w' := handleWebSocketMessage JSON_parse event_data now w in
  w' = console_error "Error parsing message:" w \/
  w' = count_message w \/
  (exists f, w' = on_console f (count_message w)) \/
  (exists text isFinal,
      truthy text = true /\ truthy isFinal = false /\
      w' = on_elements (addTranscriptItem text isFinal now) (count_message w)) \/
  (exists text isFinal,
      truthy text = true /\ truthy isFinal = true /\
      w' = count_final
             (on_elements (addTranscriptItem text isFinal now) (count_message w))).
Proof.
  unfold handleWebSocketMessage.
  destruct (JSON_parse event_data) as [data|]; [| left; reflexivity].
  destruct (nullish data).
  { right. right. left. eexists. reflexivity. }
  destruct (is_result_frame data).
  - destruct (truthy (extract_transcript data)) eqn:Ht;
      [| right; left; reflexivity].
    destruct (truthy (extract_isFinal data)) eqn:Hf.
    + right. right. right. right.
      exists (extract_transcript data), (extract_isFinal data).
      rewrite Hf. repeat split; assumption.
    + right. right. right. left.
      exists (extract_transcript data), (extract_isFinal data).
      rewrite Hf. repeat split; assumption.
  - destruct (strict_eq_str (prop data "type") "Metadata").
    { right. right. left. eexists. reflexivity. }
    destruct (truthy (prop data "error")).
    { right. right. left. eexists. reflexivity. }
    right. left. reflexivity.
Qed.

Lemma addTranscriptItem_keeps_counts text isFinal now e :
  messageCount (addTranscriptItem text isFinal now e) = messageCount e /\
  finalCount (addTranscriptItem text isFinal now e) = finalCount e /\
  modelSelect (addTranscriptItem text isFinal now e) = modelSelect e /\
  languageInput (addTranscriptItem text isFinal now e) = languageInput e.
Proof.
  unfold addTranscriptItem.
  destruct (emptyState_hidden e) as [[|]|];
    destruct (negb (truthy isFinal) && last_is_interim _); repeat split; reflexivity.
Qed.

Ltac message_case event_data now w :=
  destruct (handle_outcomes event_data now w)
    as [-> | [-> | [(f & ->) | [(t & fin & Ht & Hf & ->) | (t & fin & Ht & Hf & ->)]]]].

(** Only a message changes the transcript, the counters, their labels,
    the values of the two controls or the empty-state placeholder. *)
Lemma step_keeps_page (e : Event Payload) w :
  is_message e = false ->
  transcript (step JSON_parse e w) = transcript w /\
  counters (step JSON_parse e w) = counters w /\
  messageCount (elements (step JSON_parse e w)) = messageCount (elements w) /\
  finalCount (elements (step JSON_parse e w)) = finalCount (elements w) /\
  value (modelSelect (elements (step JSON_parse e w))) =
    value (modelSelect (elements w)) /\
  value (languageInput (elements (step JSON_parse e w))) =
    value (languageInput (elements w)) /\
  emptyState_hidden (elements (step JSON_parse e w)) =
    emptyState_hidden (elements w).
Proof.
  intros He.
  destruct e as [b | | | i r | i event_data now | i | i | b | r | | b
                | p inputData |];
    try discriminate He; unfold step, transcript, counters.
  all: unfold_handlers; crush; repeat split; reflexivity.
Qed.

Lemma step_keeps_context (e : Event Payload) w c :
  audioContext (state w) = Some c ->
  exists c', audioContext (state (step JSON_parse e w)) = Some c' /\
             sampleRate c' = sampleRate c.
Proof.
  intros H.
  destruct e as [b | | | i r | i event_data now | i | i | b | r | | b
                | p inputData |];
    unfold step.
  5: { destruct (socket_state i w) as [[| | |]|];
       try (exists c; split; [exact H | reflexivity]);
       message_case event_data now w; cbn;
       exists c; split; first [exact H | reflexivity]. }
  all: unfold_handlers; crush;
       first [ exists c; split; [assumption | reflexivity]
             | eexists; split; [eassumption | congruence]
             | eexists; split; [reflexivity | cbn; congruence] ].
Qed.

Lemma step_shown (e : Event Payload) w :
  (messages_shown w -> messages_shown (step JSON_parse e w)) /\
  (finals_shown w -> finals_shown (step JSON_parse e w)).
Proof.
  unfold messages_shown, finals_shown.
  destruct (is_message e) eqn:He.
  - destruct e as [| | | | i event_data now | | | | | | | |]; try discriminate He.
    unfold step.
    destruct (socket_state i w) as [[| | |]|]; try (split; intros H; exact H);
      message_case event_data now w; cbn;
      rewrite ?(proj1 (addTranscriptItem_keeps_counts _ _ _ _)),
        ?(proj1 (proj2 (addTranscriptItem_keeps_counts _ _ _ _)));
      split; intros H; first [exact H | reflexivity].
  - destruct (step_keeps_page e w He) as (_ & Hc & Hm & Hf & _).
    unfold counters in Hc. injection Hc as Hc1 Hc2.
    rewrite Hm, Hf, Hc1, Hc2. split; intros H; exact H.
Qed.

(** X9: the two counter labels of the page follow the counters.  Once
    the messages label shows [state.stats.messages] it does so after every
    sequence of events, and likewise the finals label; and every message
    that parses makes the messages label show the counter, every rendered
    final result the finals label, whatever the labels showed before. *)
Theorem counter_labels_follow_counters :
  (forall (es : list (Event Payload)) (w : World),
      (messages_shown w -> messages_shown (run JSON_parse es w)) /\
      (finals_shown w -> finals_shown (run JSON_parse es w))) /\
  (forall (event_data : Payload) (data : JSValue) (now : string) (w : World),
      JSON_parse event_data = Some data ->
      messages_shown (handleWebSocketMessage JSON_parse event_data now w) /\
      (is_result_frame data = true ->
       truthy (extract_transcript data) = true ->
       truthy (extract_isFinal data) = true ->
       finals_shown (handleWebSocketMessage JSON_parse event_data now w))).
Proof.
  split.
  - intros es. induction es as [| e es IH]; intros w.
    + split; intros H; exact H.
    + rewrite run_cons. destruct (step_shown e w) as [H1 H2].
      destruct (IH (step JSON_parse e w)) as [I1 I2].
      split; intros H; [apply I1, H1, H | apply I2, H2, H].
  - intros event_data data now w Hp. unfold messages_shown, finals_shown.
    unfold handleWebSocketMessage. rewrite Hp. split.
    + destruct (nullish data); [reflexivity |].
      destruct (is_result_frame data).
      * destruct (truthy (extract_transcript data)); [| reflexivity].
        destruct (truthy (extract_isFinal data)); cbn;
          rewrite (proj1 (addTranscriptItem_keeps_counts _ _ _ _)); reflexivity.
      * destruct (strict_eq_str (prop data "type") "Metadata"); [reflexivity |].
        destruct (truthy (prop data "error")); reflexivity.
    + intros Hr Ht Hf.
      rewrite (is_result_frame_not_nullish _ Hr), Hr, Ht, Hf. reflexivity.
Qed.

Lemma final_entries_app l1 l2 :
  final_entries (l1 ++ l2) = (final_entries l1 + final_entries l2)%nat.
Proof.
  induction l1 as [| [| [|] ? ?] l1 IH]; cbn; rewrite ?IH; reflexivity.
Qed.

Lemma final_entries_rendered text isFinal now e :
  final_entries (transcriptContainer_children (addTranscriptItem text isFinal now e)) =
  (final_entries (transcriptContainer_children e)
   + if truthy isFinal then 1 else 0)%nat.
Proof.
  rewrite addTranscriptItem_children.
  destruct (truthy isFinal); cbn [negb andb].
  - rewrite final_entries_app. reflexivity.
  - destruct (last_is_interim (transcriptContainer_children e)) eqn:Hl.
    + apply last_is_interim_spec in Hl as (init & ts & tx & ->).
      rewrite removelast_last, !final_entries_app. cbn. lia.
    + rewrite final_entries_app. reflexivity.
Qed.

Lemma step_final_entries (e : Event Payload) w :
  (N.of_nat (final_entries (transcript (step JSON_parse e w)))
   + stats_finals (state w) =
   N.of_nat (final_entries (transcript w))
   + stats_finals (state (step JSON_parse e w)))%N.
Proof.
  destruct (is_message e) eqn:He.
  - destruct e as [| | | | i event_data now | | | | | | | |]; try discriminate He.
    unfold step, transcript.
    destruct (socket_state i w) as [[| | |]|]; try reflexivity;
      message_case event_data now w; cbn; try reflexivity;
      rewrite final_entries_rendered, Hf; cbn; lia.
  - destruct (step_keeps_page e w He) as (Ht & Hc & _).
    unfold counters in Hc. injection Hc as _ Hc2. rewrite Ht, Hc2. reflexivity.
Qed.

(** X10: the finals counter counts the final entries of the transcript:
    over every sequence of events the number of final entries on display
    and [state.stats.finals] grow by the same amount. *)
Theorem finals_counter_counts_final_entries :
  forall (es : list (Event Payload)) (w : World),
    (N.of_nat (final_entries (transcript (run JSON_parse es w)))
     + stats_finals (state w) =
     N.of_nat (final_entries (transcript w))
     + stats_finals (state (run JSON_parse es w)))%N.
Proof.
  intros es. induction es as [| e es IH]; intros w.
  - reflexivity.
  - rewrite run_cons. pose proof (IH (step JSON_parse e w)) as H1.
    pose proof (step_final_entries e w) as H2. lia.
Qed.




(** X12: the audio context is created once.  Once [state.audioContext]
    is set, it stays set over every sequence of events, with the same
    sample rate: no handler closes, drops or replaces it, [disconnect()]
    included. *)
Theorem audio_context_created_once :
  forall (es : list (Event Payload)) (w : World) (c : AudioContext),
    audioContext (state w) = Some c ->
    exists c', audioContext (state (run JSON_parse es w)) = Some c' /\
               sampleRate c' = sampleRate c.
Proof.
  intros es. induction es as [| e es IH]; intros w c H.
  - exists c. split; [exact H | reflexivity].
  - rewrite run_cons.
    destruct (step_keeps_context e w c H) as (c1 & H1 & S1).
    destruct (IH _ c1 H1) as (c2 & H2 & S2).
    exists c2. split; [exact H2 | congruence].
Qed.

Lemma step_control_values (e : Event Payload) w :
  value (modelSelect (elements (step JSON_parse e w))) =
    value (modelSelect (elements w)) /\
  value (languageInput (elements (step JSON_parse e w))) =
    value (languageInput (elements w)).
Proof.
  destruct (is_message e) eqn:He.
  - destruct e as [| | | | i event_data now | | | | | | | |]; try discriminate He.
    unfold step.
    destruct (socket_state i w) as [[| | |]|]; try (split; reflexivity);
      message_case event_data now w; cbn;
      rewrite ?(proj1 (proj2 (proj2 (addTranscriptItem_keeps_counts _ _ _ _)))),
        ?(proj2 (proj2 (proj2 (addTranscriptItem_keeps_counts _ _ _ _))));
      split; reflexivity.
  - destruct (step_keeps_page e w He) as (_ & _ & _ & _ & H1 & H2 & _).
    split; assumption.
Qed.

(** X13: no handler writes the value of the model selector or of the
    language input: over every sequence of events both values are the
    ones the page had (the handlers only read them, in [connect()], and
    switch the controls' [disabled] flag). *)
Theorem control_values_never_written :
  forall (es : list (Event Payload)) (w : World),
    value (modelSelect (elements (run JSON_parse es w))) =
      value (modelSelect (elements w)) /\
    value (languageInput (elements (run JSON_parse es w))) =
      value (languageInput (elements w)).
Proof.
  intros es. induction es as [| e es IH]; intros w.
  - split; reflexivity.
  - rewrite run_cons. destruct (IH (step JSON_parse e w)) as [I1 I2].
    destruct (step_control_values e w) as [H1 H2].
    split; congruence.
Qed.

Lemma rendered_keeps_settled (l : list Child) (b : bool) (item c : Child) k :
  l !! k = Some c ->
  is_interim c = false ->
  ((if b && last_is_interim l then removelast l else l) ++ [item]) !! k = Some c.
Proof.
  intros Hl Hc.
  destruct (b && last_is_interim l) eqn:E.
  - apply andb_true_iff in E as [_ E].
    apply last_is_interim_spec in E as (init & ts & tx & ->).
    rewrite removelast_last.
    destruct (decide (k < length init)%nat) as [Hk | Hk].
    + rewrite lookup_app_l in Hl by exact Hk.
      rewrite lookup_app_l by exact Hk. exact Hl.
    + apply lookup_lt_Some in Hl as Hlt. rewrite length_app in Hlt. cbn in Hlt.
      assert (k = length init) as -> by lia.
      rewrite list_lookup_middle in Hl by reflexivity.
      injection Hl as <-. discriminate Hc.
  - apply lookup_lt_Some in Hl as Hlt.
    rewrite lookup_app_l by exact Hlt. exact Hl.
Qed.

Lemma rendered_not_shorter (l : list Child) (b : bool) (item : Child) :
  (length l <=
   length ((if b && last_is_interim l then removelast l else l) ++ [item]))%nat.
Proof.
  destruct (b && last_is_interim l) eqn:E.
  - apply andb_true_iff in E as [_ E].
    apply last_is_interim_spec in E as (init & ts & tx & ->).
    rewrite removelast_last, !length_app. cbn. lia.
  - rewrite length_app. cbn. lia.
Qed.

Lemma rendered_hides_placeholder text isFinal now e :
  emptyState_hidden e = Some true ->
  emptyState_hidden (addTranscriptItem text isFinal now e) = Some true.
Proof.
  intros H. unfold addTranscriptItem. rewrite H.
  destruct (negb (truthy isFinal) && last_is_interim _); exact H.
Qed.

Lemma step_settled (e : Event Payload) w :
  (forall k c, transcript w !! k = Some c -> is_interim c = false ->
     transcript (step JSON_parse e w) !! k = Some c) /\
  (length (transcript w) <= length (transcript (step JSON_parse e w)))%nat /\
  (emptyState_hidden (elements w) = Some true ->
   emptyState_hidden (elements (step JSON_parse e w)) = Some true).
Proof.
  destruct (is_message e) eqn:He.
  - destruct e as [| | | | i event_data now | | | | | | | |]; try discriminate He.
    unfold step, transcript.
    destruct (socket_state i w) as [[| | |]|];
      try (split; [intros k c H _; exact H | split; [lia | intros H; exact H]]);
      message_case event_data now w; cbn;
      try (split; [intros k c H _; exact H | split; [lia | intros H; exact H]]);
      rewrite addTranscriptItem_children;
      (split; [intros k c H Hc; apply rendered_keeps_settled; assumption |]);
      (split; [apply rendered_not_shorter
              | intros H; apply rendered_hides_placeholder; exact H]).
  - destruct (step_keeps_page e w He) as (Ht & _ & _ & _ & _ & _ & Hh).
    rewrite Ht, Hh.
    split; [intros k c H _; exact H | split; [lia | intros H; exact H]].
Qed.

(** X14: what is settled on display stays.  Over every sequence of
    events, every child of the transcript container that is not an
    interim entry (a final entry, the placeholder) stays where it is, so
    entries are never reordered and a final entry is never removed or
    rewritten; the transcript never gets shorter (nothing clears it, a
    new session included); and the empty-state placeholder, once hidden,
    stays hidden. *)
Theorem settled_entries_stay_in_place :
  forall (es : list (Event Payload)) (w : World),
    (forall k c, transcript w !! k = Some c -> is_interim c = false ->
       transcript (run JSON_parse es w) !! k = Some c) /\
    (length (transcript w) <= length (transcript (run JSON_parse es w)))%nat /\
    (emptyState_hidden (elements w) = Some true ->
     emptyState_hidden (elements (run JSON_parse es w)) = Some true).
Proof.
  intros es. induction es as [| e es IH]; intros w.
  - split; [intros k c H _; exact H | split; [cbn; lia | intros H; exact H]].
  - rewrite run_cons.
    destruct (step_settled e w) as (S1 & S2 & S3).
    destruct (IH (step JSON_parse e w)) as (I1 & I2 & I3).
    split; [intros k c H Hc; apply I1; [apply S1 |]; assumption |].
    split; [lia | intros H; apply I3, S3, H].
Qed.

End Invariants.

Lemma counter_labels_follow_counters_witness :
  messages_shown
    (run decoded
       [ SocketMessage 0 (Some (results_frame "again" true)) "10:00:05";
         ClickDisconnect ]
       (run decoded hello_scenario fresh_world)) /\
  finals_shown
    (handleWebSocketMessage decoded (Some (results_frame "hi" true)) "10:00:00"
       (run decoded session_start fresh_world)).
Proof.
  destruct (counter_labels_follow_counters decoded) as [Hrun Hmsg].
  split.
  - refine (proj1
              (Hrun
                 [ SocketMessage 0 (Some (results_frame "again" true)) "10:00:05";
                   ClickDisconnect ]
                 (run decoded hello_scenario fresh_world)) _).
    vm_compute. reflexivity.
  - apply (Hmsg _ (results_frame "hi" true)); vm_compute; reflexivity.
Defined.


Lemma audio_context_created_once_witness :
  exists c',
    audioContext
      (state
         (run decoded
            [ ClickDisconnect; ClickConnect false; SocketOpen 1 ContextThrows ]
            (run decoded session_start fresh_world))) = Some c' /\
    sampleRate c' = 16000.
Proof.
  apply (audio_context_created_once decoded _ _
           {| sampleRate := 16000; context_state := running |}).
  vm_compute. reflexivity.
Defined.

Lemma settled_entries_stay_in_place_witness :
  transcript
    (run decoded
       [ SocketMessage 0 (Some (results_frame "how" false)) "10:00:02";
         SocketMessage 0 (Some (results_frame "how are" false)) "10:00:03";
         ClickDisconnect ]
       (run decoded hello_scenario fresh_world)) !! 2%nat =
    Some (Item false "10:00:01" (JStr "hello world")).
Proof.
  refine (proj1
            (settled_entries_stay_in_place decoded
               [ SocketMessage 0 (Some (results_frame "how" false)) "10:00:02";
                 SocketMessage 0 (Some (results_frame "how are" false)) "10:00:03";
                 ClickDisconnect ]
               (run decoded hello_scenario fresh_world))
            2%nat (Item false "10:00:01" (JStr "hello world")) _ _);
    vm_compute; reflexivity.
Defined.

(** *** Failures on the way to Streaming *)

Lemma disconnect_alerts w : alerts (disconnect w) = alerts w.
Proof. unfold disconnect. crush. Qed.

Section Failures.

Context {Payload : Type} (JSON_parse : Payload -> option JSValue).


(** X16: when the audio context cannot be constructed, one failed
    session raises three alerts: [initializeAudioContext] fails (and
    alerts) once in [onConnected] and once more in [startMicrophone],
    which both carry on; the microphone is requested and granted all the
    same; only [createMediaStreamSource] on the missing context throws,
    and the [catch] clause of [onConnected] alerts about microphone
    access and tears down: the stream just granted has its tracks
    stopped, no processor is built, the channel is closing with code
    1000, and the state is Idle. *)
Theorem audio_context_failure_alerts_thrice_and_tears_down :
  forall (i : nat) (s : WebSocket) (w : World),
    sockets w !! i = Some s ->
    readyState s = CONNECTING ->
    ws (state w) = Some i ->
    audioContext (state w) = None ->
    mediaStream (state w) = None ->
    let w' := run JSON_parse
                [ SocketOpen i ContextThrows; MicrophoneGranted ContextThrows ] w in
    is_idle w' = true /\
    alerts w' =
      alerts w ++
      [ "Failed to initialize audio system";
        "Failed to initialize audio system";
        "Failed to access microphone. Please allow microphone access and try again." ] /\
    streams w' = streams w ++ [ {| tracks_stopped := true |} ] /\
    length (processors w') = length (processors w) /\
    audioContext (state w') = None /\
    (exists s', sockets w' !! i = Some s' /\
                readyState s' = CLOSING /\
                close_args s' = Some (1000, "User disconnected")).
Proof.
  intros i s w Hl Hr Hw Ha Hm w'. subst w'. unfold run. cbn [fold_left].
  set (w1 := step JSON_parse (SocketOpen i ContextThrows) w).
  assert (E1 : sockets w1 = alter (set_readyState OPEN) i (sockets w) /\
               state w1 = set_isConnected true (state w) /\
               streams w1 = streams w /\ processors w1 = processors w /\
               alerts w1 = alerts w ++ [ "Failed to initialize audio system" ]).
  { subst w1. unfold step, socket_state. rewrite Hl. cbn. rewrite Hr.
    unfold handleWebSocketOpen, onConnected, initializeAudioContext. cbn.
    rewrite Ha. unfold startMicrophone. cbn. rewrite Hm. cbn.
    repeat split; reflexivity. }
  destruct E1 as (S1 & St1 & Sm1 & Sp1 & Al1). clearbody w1.
  set (w2 := step JSON_parse (MicrophoneGranted ContextThrows) w1).
  set (w1' :=
         showError
           "Failed to access microphone. Please allow microphone access and try again."
           (on_state (set_isConnected false)
              (console_error "Failed to initialize audio:"
                 (showError "Failed to initialize audio system"
                    (console_error "Failed to initialize audio context:"
                       (console_log "Microphone access granted"
                          (on_state (set_mediaStream (Some (length (streams w1))))
                             (on_streams (fun l => l ++ [ {| tracks_stopped := false |} ])
                                w1)))))))).
  assert (E2 : w2 = disconnect w1').
  { subst w2 w1'. unfold step, onConnected_granted, startMicrophone_granted.
    cbn. rewrite St1. cbn. rewrite Ha.
    unfold initializeAudioContext. cbn. rewrite St1. cbn. rewrite Ha. cbn.
    unfold startMicrophone_pipeline. cbn. rewrite St1. cbn. rewrite Ha.
    reflexivity. }
  rewrite E2. clear E2 w2.
  assert (F : ws (state w1') = Some i /\
              mediaStream (state w1') = Some (length (streams w)) /\
              audioContext (state w1') = None /\
              sockets w1' = alter (set_readyState OPEN) i (sockets w) /\
              streams w1' = streams w ++ [ {| tracks_stopped := false |} ] /\
              processors w1' = processors w /\
              alerts w1' =
                alerts w ++
                [ "Failed to initialize audio system";
                  "Failed to initialize audio system";
                  "Failed to access microphone. Please allow microphone access and try again." ]).
  { subst w1'. cbn. rewrite St1, Sm1, Sp1, S1, Al1, <- !app_assoc. cbn.
    repeat split; assumption. }
  destruct F as (Hws & Hmed & Hctx & Fs & Fm & Fp & Fa). clearbody w1'.
  destruct (disconnect_heaps w1') as (Hs & Hms & Hp).
  pose proof (disconnect_state w1') as Hst.
  split; [unfold is_idle; rewrite Hst; reflexivity |].
  split; [rewrite disconnect_alerts; exact Fa |].
  split; [rewrite Hms, Hmed, Fm, alter_last_index; reflexivity |].
  split.
  { rewrite Hp. destruct (audioProcessor (state w1'));
      rewrite ?length_alter, Fp; reflexivity. }
  split; [rewrite Hst; exact Hctx |].
  rewrite Hs, Hws, Fs, !list_lookup_alter_eq, Hl. cbn.
  eexists. split; [reflexivity |]. split; reflexivity.
Qed.

End Failures.


Lemma audio_context_failure_alerts_thrice_and_tears_down_witness :
  is_idle
    (run decoded
       [ SocketOpen 0 ContextThrows; MicrophoneGranted ContextThrows ]
       (run decoded [ ClickConnect false ] fresh_world)) = true /\
  streams
    (run decoded
       [ SocketOpen 0 ContextThrows; MicrophoneGranted ContextThrows ]
       (run decoded [ ClickConnect false ] fresh_world)) =
    streams (run decoded [ ClickConnect false ] fresh_world) ++
    [ {| tracks_stopped := true |} ].
Proof.
  pose proof (audio_context_failure_alerts_thrice_and_tears_down decoded 0%nat)
    as H.
  edestruct H with (w := run decoded [ ClickConnect false ] fresh_world)
    as (H1 & _ & H3 & _); [ vm_compute; reflexivity .. | ].
  split; [exact H1 | exact H3].
Defined.

(** *** Frames and labels *)

Section Frames.

Context {Payload : Type} (JSON_parse : Payload -> option JSValue).


(** X18: a frame that parses but is not a result frame (its [type] is
    not ['Results'] and it has no truthy [channel]) is only logged: the
    transcript, the finals counter, the connected flag, the channel and
    the status badge are unchanged and nothing is alerted.  A [null]
    payload is logged as a parse error (the property access throws), a
    ['Metadata'] frame as metadata, a frame with a truthy [error] as an
    error of the service (which does not end the session), and any other
    frame not at all. *)
Theorem other_frames_only_logged :
  forall (event_data : Payload) (data : JSValue) (now : string) (w : World),
    JSON_parse event_data = Some data ->
    is_result_frame data = false ->
    let w' := handleWebSocketMessage JSON_parse event_data now w in
    transcript w' = transcript w /\
    stats_finals (state w') = stats_finals (state w) /\
    isConnected (state w') = isConnected (state w) /\
    ws (state w') = ws (state w) /\
    sockets w' = sockets w /\
    alerts w' = alerts w /\
    connectionStatus (elements w') = connectionStatus (elements w) /\
    console w' =
      console w ++
      (if nullish data then [ (Error, "Error parsing message:") ]
       else if strict_eq_str (prop data "type") "Metadata"
            then [ (Log, "Metadata:") ]
       else if truthy (prop data "error") then [ (Error, "Deepgram error:") ]
       else []).
Proof.
  intros event_data data now w Hp Hr w'. subst w'.
  unfold handleWebSocketMessage. rewrite Hp, Hr.
  destruct (nullish data); [repeat split; reflexivity |].
  destruct (strict_eq_str (prop data "type") "Metadata");
    [repeat split; reflexivity |].
  destruct (truthy (prop data "error")); repeat split; try reflexivity.
  cbn. rewrite app_nil_r. reflexivity.
Qed.

(** X19: the labels show what the channel was opened with.  A click on
    Connect followed by the open event of the channel it created: the
    channel's query parameters carry the values the two controls had at
    the click, together with the fixed audio format; the model and
    language labels show these same values; and both controls are
    disabled with their values untouched. *)
Theorem labels_show_what_the_channel_was_opened_with :
  forall (r : ContextResult) (w : World),
    btn_disabled (connectBtn (elements w)) = false ->
    isConnected (state w) = false ->
    let i := length (sockets w) in
    let w' := run JSON_parse [ ClickConnect false; SocketOpen i r ] w in
    url_params <$> sockets w' !! i =
      Some [ ("model", value (modelSelect (elements w)));
             ("language", value (languageInput (elements w)));
             ("encoding", "linear16");
             ("sample_rate", "16000");
             ("channels", "1") ] /\
    currentModel (elements w') = JStr (value (modelSelect (elements w))) /\
    currentLanguage (elements w') = JStr (value (languageInput (elements w))) /\
    modelSelect (elements w') =
      {| value := value (modelSelect (elements w)); disabled := true |} /\
    languageInput (elements w') =
      {| value := value (languageInput (elements w)); disabled := true |}.
Proof.
  intros r w Hb Hc i w'. subst i w'. unfold run. cbn [fold_left].
  assert (H1 : step JSON_parse (ClickConnect false) w = connect false w)
    by (unfold step; rewrite Hb; reflexivity).
  rewrite H1. unfold connect. rewrite Hc. cbn zeta.
  unfold step, socket_state. cbn [sockets on_state on_sockets].
  rewrite lookup_last_index.
  cbn [fmap option_fmap option_map readyState].
  unfold handleWebSocketOpen, onConnected, initializeAudioContext. cbn.
  destruct (audioContext (state w)) as [c|]; [| destruct r as [| [|]]];
    unfold startMicrophone; cbn;
    try (destruct (mediaStream (state w)); cbn);
    rewrite alter_last_index, lookup_last_index;
    repeat split; reflexivity.
Qed.

End Frames.

(** *** Metadata *)



(** X20: a failed metadata load is silent.  Whatever [fetch] and
    [response.json()] come to, [loadMetadata()] alerts nothing and
    touches neither the [state] object, the page elements of the session
    nor any channel; and when the request is rejected, the response is
    not [ok], the body cannot be read, or the body is [null], the four
    labelled elements keep their defaults and exactly one warning is
    logged. *)
Theorem metadata_failure_is_silent :
  forall (r : FetchResult) (m : MetadataElements) (w : World),
    state (snd (loadMetadata r m w)) = state w /\
    elements (snd (loadMetadata r m w)) = elements w /\
    alerts (snd (loadMetadata r m w)) = alerts w /\
    sockets (snd (loadMetadata r m w)) = sockets w /\
    (match r with
     | BodyParsed metadata => nullish metadata = true
     | _ => True
     end ->
     fst (loadMetadata r m w) = m /\
     exists label,
       console (snd (loadMetadata r m w)) = console w ++ [ (Warn, label) ]).
Proof.
  intros r m w. unfold loadMetadata.
  destruct r as [| | | metadata]; cbn;
    try (repeat split; try reflexivity; eexists; reflexivity).
  destruct (nullish metadata); cbn; repeat split; try reflexivity.
  - eexists. reflexivity.
  - discriminate.
  - discriminate.
Qed.



Lemma other_frames_only_logged_witness :
  transcript
    (handleWebSocketMessage decoded (Some (JObj [ ("error", JStr "bad model") ]))
       "10:00:09" (run decoded hello_scenario fresh_world)) =
    transcript (run decoded hello_scenario fresh_world) /\
  isConnected
    (state
       (handleWebSocketMessage decoded
          (Some (JObj [ ("error", JStr "bad model") ]))
          "10:00:09" (run decoded hello_scenario fresh_world))) =
    isConnected (state (run decoded hello_scenario fresh_world)).
Proof.
  pose proof (other_frames_only_logged decoded
                (Some (JObj [ ("error", JStr "bad model") ]))
                (JObj [ ("error", JStr "bad model") ])
                "10:00:09" (run decoded hello_scenario fresh_world)) as H.
  cbv zeta in H.
  destruct H as (H1 & _ & H3 & _); [ vm_compute; reflexivity .. | ].
  split; [exact H1 | exact H3].
Defined.

Lemma labels_show_what_the_channel_was_opened_with_witness :
  currentModel
    (elements
       (run decoded
          [ ClickConnect false;
            SocketOpen (length (sockets fresh_world)) (ContextCreated suspended) ]
          fresh_world)) = JStr "nova-3".
Proof.
  pose proof (labels_show_what_the_channel_was_opened_with decoded
                (ContextCreated suspended) fresh_world) as H.
  cbv zeta in H.
  destruct H as (_ & H2 & _); [ vm_compute; reflexivity .. | ].
  exact H2.
Defined.

Lemma metadata_failure_is_silent_witness :
  fst (loadMetadata (BodyParsed JNull)
         {| pageTitle := Some (JStr "Live Transcription");
            pageDescription := None;
            headerTitle := Some (JStr "Live Transcription");
            repoLink := None |}
         fresh_world) =
    {| pageTitle := Some (JStr "Live Transcription");
       pageDescription := None;
       headerTitle := Some (JStr "Live Transcription");
       repoLink := None |}.
Proof.
  destruct (metadata_failure_is_silent (BodyParsed JNull)
              {| pageTitle := Some (JStr "Live Transcription");
                 pageDescription := None;
                 headerTitle := Some (JStr "Live Transcription");
                 repoLink := None |}
              fresh_world) as (_ & _ & _ & _ & H).
  exact (proj1 (H eq_refl)).
Defined.

